(** * nri-plugin-systemd: the CreateContainer decision engine

    A shallow embedding of [systemdplugin.go]: the detector
    [isSystemdContainer], the cgroup mount rewrite [configureCgroupMount],
    the tmpfs injection [addSystemdTmpfsMounts], the environment synthesis
    [setSystemdEnvironment] and the handler [CreateContainer] that sequences
    them, followed by the properties the specification states about them.

    Go strings are byte sequences and so are Rocq's [string]s; slices are
    lists; [map[string]string] and [map[string]bool] are [gmap string _];
    a pointer that may be nil ([*api.PodSandbox], the returned adjustment)
    is an [option]. *)

From Stdlib Require Import String Ascii List Bool.
From stdpp Require Import base option list strings gmap.

Local Open Scope string_scope.
Local Open Scope list_scope.

(** ** The NRI api types the plugin reads and writes

    The package [github.com/containerd/nri/pkg/api] is a dependency; its
    source is not part of the repository. Of each type only the fields
    [systemdplugin.go] touches are kept. Slices of pointers ([[]*api.Mount])
    are lists of values: the plugin dereferences every element it visits, so
    a nil element is outside the inputs it handles, and so is a nil
    [container]. *)

Module Mount.
Record t : Type := mk {
  Destination : string;
  Type_ : string;
  Source : string;
  Options : list string
}.
End Mount.

Module KeyValue.
Record t : Type := mk {
  Key : string;
  Value : string
}.
End KeyValue.

Module PodSandbox.
Record t : Type := mk {
  Name : string;
  Annotations : gmap string string
}.
End PodSandbox.

Module Container.
Record t : Type := mk {
  Id : string;
  Name : string;
  Args : list string;
  Env : list string;
  Mounts : list Mount.t;
  Annotations : gmap string string
}.
End Container.

Module ContainerUpdate.
(** The plugin never builds an update; only the type of the second
    component of the handler's result is needed. *)
Record t : Type := mk {
  ContainerId : string;
  IgnoreFailure : bool
}.
End ContainerUpdate.

(** Modelled from the spec: the adjustment type and its recording methods
    [AddMount], [RemoveMount] and [AddEnv] belong to the api package. The
    adjustment is the accumulator of the specification's data model:
    mount-removal directives by destination, mount-addition directives as
    full mounts, environment additions as key and value. It is kept in the
    api's layout: one [Mounts] list in recording order, where a removal is a
    mount that carries only the destination with the removal mark, and one
    [Env] list. [removals] and [additions] read the two kinds of mount
    directive back. *)
Module ContainerAdjustment.
Record t : Type := mk {
  Mounts : list Mount.t;
  Env : list KeyValue.t
}.

(** [&api.ContainerAdjustment{}] *)
Definition zero : t := mk [] [].

(** [MarkForRemoval(key)]: the api marks a removal by a leading dash. *)
Definition MarkForRemoval (key : string) : string := "-" ++ key.

(** [IsMarkedForRemoval(key)]: the unmarked key, when [key] is marked. *)
Definition IsMarkedForRemoval (key : string) : option string :=
  match key with
  | String "-" rest => Some rest
  | _ => None
  end.

(** [a.AddMount(m)] appends [m] to [a.Mounts]. *)
Definition AddMount (m : Mount.t) (a : t) : t :=
  mk (Mounts a ++ [m]) (Env a).

(** [a.RemoveMount(path)] appends a mount that carries only the marked
    destination. *)
Definition RemoveMount (ContainerPath : string) (a : t) : t :=
  mk (Mounts a ++ [Mount.mk (MarkForRemoval ContainerPath) "" "" []]) (Env a).

(** [a.AddEnv(key, value)] appends the pair to [a.Env]. *)
Definition AddEnv (key value : string) (a : t) : t :=
  mk (Mounts a) (Env a ++ [KeyValue.mk key value]).

(** The two readings of [a.Mounts]: the destinations asked to be removed,
    and the mounts asked to be added. *)
Definition removals (a : t) : list string :=
  omap (fun m => IsMarkedForRemoval (Mount.Destination m)) (Mounts a).

Definition additions (a : t) : list Mount.t :=
  filter (fun m => IsMarkedForRemoval (Mount.Destination m) = None) (Mounts a).

(** The values recorded for one environment key, in recording order. *)
Definition envValues (key : string) (a : t) : list string :=
  omap (fun kv => if String.eqb (KeyValue.Key kv) key
                  then Some (KeyValue.Value kv) else None) (Env a).
End ContainerAdjustment.

(** ** What lies outside the engine: the logger, the flag, the host *)

(** A value handed to [dump], which takes [...interface{}]. *)
Inductive any : Type :=
  | AnyString (s : string)
  | AnyPod (pod : option PodSandbox.t)
  | AnyContainer (container : Container.t)
  | AnyAdjustment (adjust : ContainerAdjustment.t).

(** One call to the logger, or to [dump], whose YAML rendering is not
    modelled beyond the call and its arguments. *)
Inductive LogCall : Type :=
  | Infof (msg : string)
  | Errorf (msg : string)
  | Debugf (msg : string)
  | Dump (args : list any).

(** [verbose] is the package variable set from the command line;
    [cgroupfsNotExist] is what [os.IsNotExist] answers on the error of
    [os.Stat("/sys/fs/cgroup")]; [logged] collects the logger calls, the
    latest last. *)
Record World : Type := mkWorld {
  verbose : bool;
  cgroupfsNotExist : bool;
  logged : list LogCall
}.

(** A state monad over [World]. *)
Definition M (A : Type) : Type := World -> A * World.

#[global] Instance M_ret : MRet M := fun A x w => (x, w).
#[global] Instance M_bind : MBind M :=
  fun A B f m w => let '(x, w') := m w in f x w'.

Definition getVerbose : M bool := fun w => (verbose w, w).
Definition statCgroupfsNotExist : M bool := fun w => (cgroupfsNotExist w, w).
Definition logCall (c : LogCall) : M unit :=
  fun w => (tt, mkWorld (verbose w) (cgroupfsNotExist w) (logged w ++ [c])).
Definition when (b : bool) (m : M unit) : M unit :=
  if b then m else mret tt.

(** [error] values are built by [fmt.Errorf] from a message. *)
Definition error : Type := string.

(** ** The engine *)

Definition containerName (pod : option PodSandbox.t) (container : Container.t)
  : string :=
  match pod with
  | Some pod => PodSandbox.Name pod ++ "/" ++ Container.Name container
  | None => Container.Name container
  end.

Definition isSystemdContainer (container : Container.t) : bool :=
  match Container.Args container with
  | [] => false
  | cmd :: _ =>
      if String.eqb cmd "/sbin/init" then true
      else if String.eqb cmd "/lib/systemd/systemd" then true
      else if String.eqb cmd "/usr/lib/systemd/systemd" then true
      else false
  end.

(** The first mount whose destination is exactly [/sys/fs/cgroup]
    (the loop leaves at the first hit). *)
Definition findCgroupMount (mounts : list Mount.t) : option Mount.t :=
  find (fun mount => String.eqb (Mount.Destination mount) "/sys/fs/cgroup")
       mounts.

(** The [hasRO] scan over the options of the mount found. *)
Definition hasRO (options : list string) : bool :=
  existsb (fun opt => String.eqb opt "ro") options.

(** The loop that builds the new options by appending, one per option. *)
Definition rewriteOptions (existing : list string) : list string :=
  foldl (fun options opt =>
           if String.eqb opt "ro" then options ++ ["rw"]
           else options ++ [opt])
        [] existing.

Definition configureCgroupMount (adjust : ContainerAdjustment.t)
    (container : Container.t) (ctrName : string)
  : M (ContainerAdjustment.t * option error) :=
  notExist ← statCgroupfsNotExist;
  if (notExist : bool) then
    logCall (Errorf (ctrName ++ ": cgroup filesystem not available at /sys/fs/cgroup - skipping systemd support")) ;;
    mret (adjust, None)
  else
    match findCgroupMount (Container.Mounts container) with
    | None =>
        logCall (Errorf (ctrName ++ ": no existing cgroup mount found - systemd requires /sys/fs/cgroup")) ;;
        mret (adjust, Some "cgroup mount required for systemd container")
    | Some existingMount =>
        if negb (hasRO (Mount.Options existingMount)) then
          logCall (Debugf (ctrName ++ ": cgroup mount already has rw, skipping")) ;;
          mret (adjust, None)
        else
          let options := rewriteOptions (Mount.Options existingMount) in
          let adjust := ContainerAdjustment.RemoveMount "/sys/fs/cgroup" adjust in
          let adjust :=
            ContainerAdjustment.AddMount
              (Mount.mk (Mount.Destination existingMount)
                        (Mount.Type_ existingMount)
                        (Mount.Source existingMount)
                        options)
              adjust in
          logCall (Debugf (ctrName ++ ": changed cgroup mount from ro to rw")) ;;
          mret (adjust, None)
    end.

(** The compiled-in catalog of [addSystemdTmpfsMounts]: (dest, mode). *)
Definition tmpfsMounts : list (string * string) :=
  [ ("/run", "mode=755");
    ("/run/lock", "mode=755");
    ("/tmp", "mode=1777");
    ("/var/log/journal", "mode=755") ].

(** [existingMounts[mount.Destination] = true] for every declared mount. *)
Definition existingMountsOf (mounts : list Mount.t) : gmap string bool :=
  foldl (fun existingMounts mount =>
           <[Mount.Destination mount := true]> existingMounts)
        ∅ mounts.

(** Reading a [map[string]bool] at a key it may lack gives [false]. *)
Definition lookupBool (m : gmap string bool) (k : string) : bool :=
  default false (m !! k).

Definition tmpfsMount (dest mode : string) : Mount.t :=
  Mount.mk dest "tmpfs" "tmpfs" ["rw"; "rprivate"; "nosuid"; "nodev"; mode].

Definition addSystemdTmpfsMounts (adjust : ContainerAdjustment.t)
    (container : Container.t) : ContainerAdjustment.t :=
  let existingMounts := existingMountsOf (Container.Mounts container) in
  foldl (fun adjust '(dest, mode) =>
           if lookupBool existingMounts dest then adjust
           else ContainerAdjustment.AddMount (tmpfsMount dest mode) adjust)
        adjust tmpfsMounts.

(** The [hasContainerUUID] scan over the declared environment. *)
Definition hasContainerUUID (env : list string) : bool :=
  existsb (fun e => String.prefix "container_uuid=" e) env.

Definition setSystemdEnvironment (adjust : ContainerAdjustment.t)
    (pod : option PodSandbox.t) (container : Container.t)
  : ContainerAdjustment.t :=
  let adjust := ContainerAdjustment.AddEnv "container" "other" adjust in
  let hasUUID := hasContainerUUID (Container.Env container) in
  let adjust :=
    if negb hasUUID && negb (String.eqb (Container.Id container) "")
    then ContainerAdjustment.AddEnv "container_uuid" (Container.Id container) adjust
    else adjust in
  match pod with
  | Some pod =>
      match PodSandbox.Annotations pod !! "io.kubernetes.pod.uid" with
      | Some uuid =>
          if negb hasUUID
          then ContainerAdjustment.AddEnv "container_uuid" uuid adjust
          else adjust
      | None => adjust
      end
  | None => adjust
  end.

(** What [CreateContainer] returns: adjustment, updates, error, each nil
    ([None]) or not. *)
Definition Response : Type :=
  option ContainerAdjustment.t * option (list ContainerUpdate.t) * option error.

Definition CreateContainer (pod : option PodSandbox.t) (container : Container.t)
  : M Response :=
  let ctrName := containerName pod container in
  v ← getVerbose;
  when v (logCall (Dump [AnyString "CreateContainer"; AnyString "pod"; AnyPod pod;
                         AnyString "container"; AnyContainer container])) ;;
  if negb (isSystemdContainer container) then
    when v (logCall (Infof (ctrName ++ ": not a systemd container, skipping"))) ;;
    mret (None, None, None)
  else
    let adjust := ContainerAdjustment.zero in
    '(adjust, err) ← configureCgroupMount adjust container ctrName;
    match err with
    | Some err => mret (None, None, Some err)
    | None =>
        let adjust := addSystemdTmpfsMounts adjust container in
        let adjust := setSystemdEnvironment adjust pod container in
        (if (v : bool) then
           logCall (Dump [AnyString ctrName; AnyString "ContainerAdjustment";
                          AnyAdjustment adjust])
         else
           logCall (Infof (ctrName ++ ": systemd support configured"))) ;;
        mret (Some adjust, None, None)
    end.

(** A fresh run: nothing logged yet. *)
Definition world (v notExist : bool) : World := mkWorld v notExist [].

(** ** Applying an adjustment to the declared mounts *)

(** Modelled from the spec: the container runtime, not the plugin, applies
    an adjustment, and no code of the repository does. For the idempotence
    property the mount directives are applied the way the specification
    words it, with the destination as the key of the mount set: every
    declared mount at a removed destination is dropped, and the added mounts
    are appended in their recording order. *)
Definition applyMounts (adjust : ContainerAdjustment.t) (mounts : list Mount.t)
  : list Mount.t :=
  filter (fun m => Mount.Destination m ∉ ContainerAdjustment.removals adjust) mounts
  ++ ContainerAdjustment.additions adjust.

(** The declared destinations of a container. *)
Definition destinations (container : Container.t) : list string :=
  Mount.Destination <$> Container.Mounts container.

(** ** Diagnostics: [dump]

    [dump] is the verbose-mode printer behind the [Dump] calls above. Three
    things it uses come from libraries and are taken as they are given:
    [yaml.Marshal], which yields the document or an error,
    [strings.TrimSpace], and the rendering by the [%s] verb of a tag that is
    not a string. [strings.Split] on a newline is written out. *)

Definition newline : ascii := Ascii.ascii_of_nat 10.

(** [strings.Split(s, "\n")]: the pieces between newlines, one more than
    there are newlines; the empty string gives one empty piece. *)
Fixpoint Split (s : string) : list string :=
  match s with
  | EmptyString => [EmptyString]
  | String c rest =>
      if Ascii.eqb c newline then EmptyString :: Split rest
      else match Split rest with
           | line :: lines => String c line :: lines
           | [] => [String c EmptyString]
           end
  end.

(** [strings.Join(lines, "\n")], to read [Split] back. *)
Fixpoint Join (lines : list string) : string :=
  match lines with
  | [] => EmptyString
  | [line] => line
  | line :: rest => line +:+ String newline (Join rest)
  end.

(** A [for _, x := range l] loop whose body only logs. *)
Fixpoint forEach {A : Type} (l : list A) (body : A -> M unit) : M unit :=
  match l with
  | [] => mret tt
  | x :: rest => body x ;; forEach rest body
  end.

Section Dump.

Variable yamlMarshal : any -> string + error.
Variable TrimSpace : string -> string.
Variable formatOther : any -> string.

(** The [%s] verb: a string prints as itself. *)
Definition verbS (a : any) : string :=
  match a with
  | AnyString s => s
  | _ => formatOther a
  end.

(** The body of the loop of [dump], for one tag and object. *)
Definition dumpObject (prefix : string) (tag obj : any) : M unit :=
  match yamlMarshal obj with
  | inr err =>
      logCall (Infof (prefix +:+ ": " +:+ verbS tag
                      +:+ ": failed to dump object: " +:+ err))
  | inl msg =>
      if negb (String.eqb prefix "") then
        logCall (Infof (prefix +:+ ": " +:+ verbS tag +:+ ":")) ;;
        forEach (Split (TrimSpace msg))
                (fun line => logCall (Infof (prefix +:+ ":    " +:+ line)))
      else
        logCall (Infof (verbS tag +:+ ":")) ;;
        forEach (Split (TrimSpace msg))
                (fun line => logCall (Infof ("  " +:+ line)))
  end.

(** The loop [for ; idx < len(args)-1; idx += 2], on the arguments from
    [idx] on: it runs while two of them are left. *)
Fixpoint dumpLoop (prefix : string) (args : list any) : M unit :=
  match args with
  | tag :: obj :: rest => dumpObject prefix tag obj ;; dumpLoop prefix rest
  | _ => mret tt
  end.

(** [dump(args...)]. The answer is [None] when the type assertion
    [args[0].(string)] panics, which happens before anything is logged. *)
Definition dump (args : list any) : M (option unit) :=
  if Nat.odd (length args) then
    match args with
    | AnyString prefix :: rest => dumpLoop prefix rest ;; mret (Some tt)
    | _ => mret None
    end
  else
    dumpLoop "" args ;; mret (Some tt).

End Dump.

(** Whether an entry of the log is a call of [dump] rather than a call of
    the logger itself. *)
Definition isDump (c : LogCall) : bool :=
  match c with
  | Dump _ => true
  | _ => false
  end.

(** ** Sample requests

    The requests of [systemdplugin_test.go] and of the specification's
    testable properties. *)
Module Samples.

Definition cgroupMount (options : list string) : Mount.t :=
  Mount.mk "/sys/fs/cgroup" "cgroup" "cgroup" options.

Definition testPod : PodSandbox.t := PodSandbox.mk "test-pod-systemd" ∅.

Definition podWithUID : PodSandbox.t :=
  PodSandbox.mk "test-pod-systemd" {[ "io.kubernetes.pod.uid" := "xyz" ]}.

Definition bash : Container.t :=
  Container.mk "" "test-container" ["/bin/bash"] [] [] ∅.

Definition sbinInit : Container.t :=
  Container.mk "test-container-id-12345" "test-container-systemd"
    ["/sbin/init"] ["PATH=/usr/bin"]
    [cgroupMount ["nosuid"; "noexec"; "nodev"; "relatime"; "rw"]] ∅.

Definition readOnlyCgroup : Container.t :=
  Container.mk "test-container-id-12345" "test-container-systemd"
    ["/lib/systemd/systemd"; "--system"] ["PATH=/usr/bin"]
    [Mount.mk "/tmp" "bind" "/scratch" ["rw"];
     cgroupMount ["nosuid"; "noexec"; "nodev"; "relatime"; "ro"]] ∅.

Definition noCgroupMount : Container.t :=
  Container.mk "test-container-id-12345" "test-container-systemd"
    ["/usr/lib/systemd/systemd"] ["PATH=/usr/bin"]
    [Mount.mk "/tmp" "bind" "/scratch" ["rw"]] ∅.

Definition idAndPodUID : Container.t :=
  Container.mk "abc123" "test-container-systemd" ["/sbin/init"] []
    [cgroupMount ["nosuid"; "noexec"; "nodev"; "relatime"; "rw"]] ∅.

Definition userUUID : Container.t :=
  Container.mk "abc123" "test-container-systemd" ["/sbin/init"]
    ["PATH=/usr/bin"; "container_uuid=user-value"]
    [cgroupMount ["nosuid"; "noexec"; "nodev"; "relatime"; "rw"]] ∅.

End Samples.

(** Stand-ins for the library functions [dump] is given, to run it on
    examples: a marshaller that renders every object as the same two-line
    document and refuses strings, a trim that finds nothing to trim, and a
    rendering of tags that are not strings. *)
Module DumpSamples.

Definition twoLines : string := "name: demo" +:+ String newline "kind: pod".

Definition yamlMarshal (obj : any) : string + error :=
  match obj with
  | AnyString _ => inr "unsupported"
  | _ => inl twoLines
  end.

Definition TrimSpace (s : string) : string := s.

Definition formatOther (a : any) : string := "%!s(object)".

End DumpSamples.

(** ** Supporting lemmas *)

Section Loops.

Lemma rewriteOptions_from (acc existing : list string) :
  foldl (fun options opt =>
           if String.eqb opt "ro" then options ++ ["rw"]
           else options ++ [opt]) acc existing
  = acc ++ map (fun opt => if String.eqb opt "ro" then "rw" else opt) existing.
Proof.
  revert acc. induction existing as [|opt rest IH]; intros acc; simpl.
  - by rewrite app_nil_r.
  - rewrite IH. destruct (String.eqb opt "ro"); by rewrite <- app_assoc.
Qed.

Lemma rewriteOptions_map (existing : list string) :
  rewriteOptions existing
  = map (fun opt => if String.eqb opt "ro" then "rw" else opt) existing.
Proof. unfold rewriteOptions. by rewrite rewriteOptions_from. Qed.

Lemma hasRO_rewriteOptions (existing : list string) :
  hasRO (rewriteOptions existing) = false.
Proof.
  rewrite rewriteOptions_map. unfold hasRO.
  induction existing as [|opt rest IH]; simpl; [done|].
  rewrite IH, orb_false_r.
  destruct (String.eqb opt "ro") eqn:E; [done | exact E].
Qed.

Lemma hasRO_true (options : list string) :
  hasRO options = true <-> "ro" ∈ options.
Proof.
  unfold hasRO. rewrite existsb_exists. split.
  - intros (opt & Hin & Heq). apply String.eqb_eq in Heq. subst opt.
    by apply list_elem_of_In.
  - intros Hin. exists "ro". split; [by apply list_elem_of_In | done].
Qed.

Lemma hasRO_false (options : list string) :
  hasRO options = false <-> "ro" ∉ options.
Proof.
  rewrite <- hasRO_true. destruct (hasRO options); split; congruence.
Qed.

Lemma existingMountsOf_from (em : gmap string bool) (mounts : list Mount.t)
    (d : string) :
  lookupBool
    (foldl (fun existingMounts mount =>
              <[Mount.Destination mount := true]> existingMounts) em mounts) d
  = lookupBool em d || bool_decide (d ∈ Mount.Destination <$> mounts).
Proof.
  revert em. induction mounts as [|m rest IH]; intros em.
  - cbn [foldl]. rewrite fmap_nil.
    rewrite bool_decide_eq_false_2 by apply not_elem_of_nil.
    by rewrite orb_false_r.
  - cbn [foldl]. rewrite IH, fmap_cons. unfold lookupBool.
    destruct (decide (Mount.Destination m = d)) as [->|Hne].
    + rewrite lookup_insert_eq. cbn [default].
      rewrite (bool_decide_eq_true_2 (_ ∈ _ :: _)) by left.
      by rewrite orb_true_r.
    + rewrite lookup_insert_ne by done.
      f_equal. apply bool_decide_ext. rewrite elem_of_cons.
      split; [tauto | intros [E|?]; [by subst | done]].
Qed.

Lemma existingMountsOf_spec (mounts : list Mount.t) (d : string) :
  lookupBool (existingMountsOf mounts) d
  = bool_decide (d ∈ Mount.Destination <$> mounts).
Proof.
  unfold existingMountsOf. rewrite existingMountsOf_from.
  unfold lookupBool. by rewrite lookup_empty.
Qed.

End Loops.

Lemma filter_none {A : Type} (P : A -> Prop) `{!forall x, Decision (P x)}
    (l : list A) :
  (forall x, x ∈ l -> ~ P x) -> filter P l = [].
Proof.
  induction l as [|x l IH]; intros Hl; [done|].
  rewrite filter_cons, decide_False by (apply Hl; left).
  apply IH. intros y Hy. apply Hl. by right.
Qed.

Lemma filter_all {A : Type} (P : A -> Prop) `{!forall x, Decision (P x)}
    (l : list A) :
  (forall x, x ∈ l -> P x) -> filter P l = l.
Proof.
  induction l as [|x l IH]; intros Hl; [done|].
  rewrite filter_cons, decide_True by (apply Hl; left).
  f_equal. apply IH. intros y Hy. apply Hl. by right.
Qed.

Section Injector.

(** One step of the catalog loop, and the loop from any accumulator. *)
Lemma tmpfs_loop (existingMounts : gmap string bool)
    (catalog : list (string * string)) (adjust : ContainerAdjustment.t) :
  foldl (fun adjust '(dest, mode) =>
           if lookupBool existingMounts dest then adjust
           else ContainerAdjustment.AddMount (tmpfsMount dest mode) adjust)
        adjust catalog
  = ContainerAdjustment.mk
      (ContainerAdjustment.Mounts adjust
       ++ map (fun e => tmpfsMount e.1 e.2)
              (filter (fun e => lookupBool existingMounts e.1 = false) catalog))
      (ContainerAdjustment.Env adjust).
Proof.
  revert adjust. induction catalog as [|[dest mode] rest IH]; intros adjust.
  - cbn [foldl]. rewrite filter_nil. cbn [map]. rewrite app_nil_r.
    by destruct adjust.
  - cbn [foldl]. rewrite IH, filter_cons. cbn [fst].
    destruct (lookupBool existingMounts dest) eqn:E.
    + by rewrite decide_False by done.
    + rewrite decide_True by done. cbn [map fst snd].
      unfold ContainerAdjustment.AddMount. cbn.
      by rewrite <- app_assoc.
Qed.

Lemma addSystemdTmpfsMounts_eq (adjust : ContainerAdjustment.t)
    (container : Container.t) :
  addSystemdTmpfsMounts adjust container
  = ContainerAdjustment.mk
      (ContainerAdjustment.Mounts adjust
       ++ map (fun e => tmpfsMount e.1 e.2)
              (filter (fun e => e.1 ∉ destinations container) tmpfsMounts))
      (ContainerAdjustment.Env adjust).
Proof.
  unfold addSystemdTmpfsMounts. rewrite tmpfs_loop. do 3 f_equal.
  apply list_filter_iff. intros [dest mode]. cbn [fst].
  rewrite existingMountsOf_spec. unfold destinations.
  by rewrite bool_decide_eq_false.
Qed.

(** When every catalog destination is declared, nothing is recorded. *)
Lemma addSystemdTmpfsMounts_all_declared (adjust : ContainerAdjustment.t)
    (container : Container.t) :
  (forall e, e ∈ tmpfsMounts -> e.1 ∈ destinations container) ->
  addSystemdTmpfsMounts adjust container = adjust.
Proof.
  intros Hall. rewrite addSystemdTmpfsMounts_eq.
  replace (filter _ tmpfsMounts) with (@nil (string * string)).
  - cbn [map]. rewrite app_nil_r. by destruct adjust.
  - symmetry. apply filter_none. intros e He Hn. by apply Hn, Hall.
Qed.

End Injector.

Section Synthesizer.

Lemma setSystemdEnvironment_Mounts (adjust : ContainerAdjustment.t)
    (pod : option PodSandbox.t) (container : Container.t) :
  ContainerAdjustment.Mounts (setSystemdEnvironment adjust pod container)
  = ContainerAdjustment.Mounts adjust.
Proof.
  unfold setSystemdEnvironment.
  destruct pod as [pod|]; [destruct (PodSandbox.Annotations pod !! _)|];
    destruct (hasContainerUUID _), (String.eqb (Container.Id container) "");
    reflexivity.
Qed.

(** With a declared [container_uuid], only the marker is recorded. *)
Lemma setSystemdEnvironment_declared (adjust : ContainerAdjustment.t)
    (pod : option PodSandbox.t) (container : Container.t) :
  hasContainerUUID (Container.Env container) = true ->
  setSystemdEnvironment adjust pod container
  = ContainerAdjustment.AddEnv "container" "other" adjust.
Proof.
  intros Hdecl. unfold setSystemdEnvironment. rewrite Hdecl. cbn [negb andb].
  destruct pod as [pod|]; [|done].
  by destruct (PodSandbox.Annotations pod !! _).
Qed.

(** With no sandbox, or a sandbox without the pod UID annotation, the
    annotation branch records nothing. *)
Lemma setSystemdEnvironment_no_uid (adjust : ContainerAdjustment.t)
    (pod : option PodSandbox.t) (container : Container.t) :
  (forall p, pod = Some p ->
             PodSandbox.Annotations p !! "io.kubernetes.pod.uid" = None) ->
  setSystemdEnvironment adjust pod container
  = if negb (hasContainerUUID (Container.Env container))
       && negb (String.eqb (Container.Id container) "")
    then ContainerAdjustment.AddEnv "container_uuid" (Container.Id container)
           (ContainerAdjustment.AddEnv "container" "other" adjust)
    else ContainerAdjustment.AddEnv "container" "other" adjust.
Proof.
  intros Hpod. unfold setSystemdEnvironment.
  destruct pod as [p|]; [|done]. by rewrite (Hpod p eq_refl).
Qed.

(** Without a declared [container_uuid], with an id and with the pod UID
    annotation, both branches record. *)
Lemma setSystemdEnvironment_both (adjust : ContainerAdjustment.t)
    (pod : PodSandbox.t) (container : Container.t) (uuid : string) :
  hasContainerUUID (Container.Env container) = false ->
  Container.Id container <> "" ->
  PodSandbox.Annotations pod !! "io.kubernetes.pod.uid" = Some uuid ->
  setSystemdEnvironment adjust (Some pod) container
  = ContainerAdjustment.AddEnv "container_uuid" uuid
      (ContainerAdjustment.AddEnv "container_uuid" (Container.Id container)
         (ContainerAdjustment.AddEnv "container" "other" adjust)).
Proof.
  intros Hdecl Hid Hann. unfold setSystemdEnvironment.
  rewrite Hdecl, Hann. apply String.eqb_neq in Hid. by rewrite Hid.
Qed.

Lemma hasContainerUUID_true (env : list string) :
  hasContainerUUID env = true
  <-> exists e, e ∈ env /\ String.prefix "container_uuid=" e = true.
Proof.
  unfold hasContainerUUID. rewrite existsb_exists.
  split; intros (e & He & Hp); exists e; split; try done;
    by apply list_elem_of_In.
Qed.

End Synthesizer.

Section Handler.

(** The cgroup step of the handler, as the mounts it records or the error
    it raises. *)
Lemma configureCgroupMount_result (adjust : ContainerAdjustment.t)
    (container : Container.t) (ctrName : string) (w : World) :
  (configureCgroupMount adjust container ctrName w).1
  = if cgroupfsNotExist w then (adjust, None)
    else match findCgroupMount (Container.Mounts container) with
         | None => (adjust, Some "cgroup mount required for systemd container")
         | Some existingMount =>
             if hasRO (Mount.Options existingMount)
             then (ContainerAdjustment.AddMount
                     (Mount.mk (Mount.Destination existingMount)
                               (Mount.Type_ existingMount)
                               (Mount.Source existingMount)
                               (rewriteOptions (Mount.Options existingMount)))
                     (ContainerAdjustment.RemoveMount "/sys/fs/cgroup" adjust),
                   None)
             else (adjust, None)
         end.
Proof.
  unfold configureCgroupMount, mbind, M_bind, statCgroupfsNotExist.
  destruct (cgroupfsNotExist w); [done|].
  destruct (findCgroupMount _) as [m|]; [|done].
  by destruct (hasRO _).
Qed.

(** Neither the label nor what was logged before changes the outcome. *)
Lemma configureCgroupMount_same (adjust : ContainerAdjustment.t)
    (container : Container.t) (n1 n2 : string) (w1 w2 : World) :
  cgroupfsNotExist w1 = cgroupfsNotExist w2 ->
  (configureCgroupMount adjust container n1 w1).1
  = (configureCgroupMount adjust container n2 w2).1.
Proof. intros E. by rewrite !configureCgroupMount_result, E. Qed.

Lemma CreateContainer_response (pod : option PodSandbox.t)
    (container : Container.t) (w : World) :
  (CreateContainer pod container w).1
  = if isSystemdContainer container then
      match (configureCgroupMount ContainerAdjustment.zero container
               (containerName pod container) w).1 with
      | (_, Some err) => (None, None, Some err)
      | (adjust, None) =>
          (Some (setSystemdEnvironment
                   (addSystemdTmpfsMounts adjust container) pod container),
           None, None)
      end
    else (None, None, None).
Proof.
  unfold CreateContainer, mbind, M_bind, getVerbose, when.
  destruct (isSystemdContainer container); cbn [negb].
  - set (name := containerName pod container).
    destruct (verbose w) eqn:V; unfold logCall, mret, M_ret; cbv beta iota.
    + match goal with
      | |- context [configureCgroupMount _ _ _ ?w2] =>
          rewrite (configureCgroupMount_same ContainerAdjustment.zero
                     container name name w w2) by done;
          destruct (configureCgroupMount ContainerAdjustment.zero
                      container name w2) as [[adjust [err|]] w3]
      end; reflexivity.
    + destruct (configureCgroupMount ContainerAdjustment.zero
                  container name w) as [[adjust [err|]] w3]; reflexivity.
  - by destruct (verbose w).
Qed.

End Handler.

(** ** The detector *)

Example detector_empty_args :
  isSystemdContainer (Container.mk "" "" [] [] [] ∅) = false.
Proof. reflexivity. Qed.

Example detector_test_table :
  map (fun args => isSystemdContainer (Container.mk "" "" args [] [] ∅))
      [ ["/bin/bash"]; ["/bin/sh"]; ["sleep"; "infinity"]; ["/sbin/init"];
        ["/lib/systemd/systemd"]; ["/usr/lib/systemd/systemd"];
        ["/sbin/init"; "--log-target=journal"] ]
  = [false; false; false; true; true; true; true].
Proof. reflexivity. Qed.

(** C4. The detector answers true exactly when the argument vector is not
    empty and its first element is one of [/sbin/init],
    [/lib/systemd/systemd], [/usr/lib/systemd/systemd]; the arguments after
    the first play no part. In particular it answers false on an empty
    vector and on every other first argument. *)
Theorem isSystemdContainer_allow_list (container : Container.t) :
  isSystemdContainer container = true
  <-> exists cmd rest,
        Container.Args container = cmd :: rest
        /\ (cmd = "/sbin/init"
            \/ cmd = "/lib/systemd/systemd"
            \/ cmd = "/usr/lib/systemd/systemd").
Proof.
  unfold isSystemdContainer.
  destruct (Container.Args container) as [|cmd rest].
  - split; [discriminate | intros (? & ? & E & _); discriminate].
  - destruct (String.eqb cmd "/sbin/init") eqn:E1;
      [apply String.eqb_eq in E1; split; eauto 6|].
    destruct (String.eqb cmd "/lib/systemd/systemd") eqn:E2;
      [apply String.eqb_eq in E2; split; eauto 6|].
    destruct (String.eqb cmd "/usr/lib/systemd/systemd") eqn:E3;
      [apply String.eqb_eq in E3; split; eauto 6|].
    apply String.eqb_neq in E1, E2, E3.
    split; [discriminate|].
    intros (cmd' & rest' & E & H). injection E as <- <-.
    destruct H as [?|[?|?]]; contradiction.
Qed.

(** ** The handler on requests it does not adjust *)

(** C8. When the detector answers false the handler returns a nil
    adjustment, nil updates and a nil error, whatever the sandbox, the
    verbosity and the host; no adjustment is built at all. *)
Theorem CreateContainer_not_systemd (pod : option PodSandbox.t)
    (container : Container.t) (w : World) :
  isSystemdContainer container = false ->
  (CreateContainer pod container w).1 = (None, None, None).
Proof. intros Hdet. by rewrite CreateContainer_response, Hdet. Qed.

Lemma CreateContainer_not_systemd_bash :
  isSystemdContainer Samples.bash = false
  /\ (CreateContainer (Some Samples.testPod) Samples.bash (world false false)).1
     = (None, None, None).
Proof.
  split; [reflexivity|].
  apply (CreateContainer_not_systemd (Some Samples.testPod) Samples.bash).
  reflexivity.
Defined.

Lemma findCgroupMount_None (mounts : list Mount.t) :
  (forall m, m ∈ mounts -> Mount.Destination m <> "/sys/fs/cgroup") ->
  findCgroupMount mounts = None.
Proof.
  intros Hno. unfold findCgroupMount.
  induction mounts as [|m rest IH]; [done|]. cbn [find].
  destruct (String.eqb _ _) eqn:E.
  - apply String.eqb_eq in E. exfalso. apply (Hno m); [left | done].
  - apply IH. intros m' Hm'. apply Hno. by right.
Qed.

(** C2. A detected systemd container that declares no mount at exactly
    [/sys/fs/cgroup], on a host whose cgroup filesystem exists, makes the
    handler return an error with a nil adjustment and nil updates. *)
Theorem CreateContainer_missing_cgroup_mount (pod : option PodSandbox.t)
    (container : Container.t) (w : World) :
  isSystemdContainer container = true ->
  cgroupfsNotExist w = false ->
  (forall m, m ∈ Container.Mounts container ->
             Mount.Destination m <> "/sys/fs/cgroup") ->
  exists err : error, (CreateContainer pod container w).1 = (None, None, Some err).
Proof.
  intros Hdet Hhost Hno. exists "cgroup mount required for systemd container".
  rewrite CreateContainer_response, Hdet, configureCgroupMount_result, Hhost.
  by rewrite (findCgroupMount_None _ Hno).
Qed.

Lemma CreateContainer_missing_cgroup_mount_sample :
  exists err : error,
    (CreateContainer (Some Samples.testPod) Samples.noCgroupMount
       (world false false)).1 = (None, None, Some err).
Proof.
  apply (CreateContainer_missing_cgroup_mount (Some Samples.testPod)
           Samples.noCgroupMount (world false false)).
  - reflexivity.
  - reflexivity.
  - intros m Hm. apply list_elem_of_singleton in Hm. subst m. discriminate.
Defined.

(** ** The environment synthesizer *)

Lemma prefix_app (p rest : string) : String.prefix p (p +:+ rest) = true.
Proof.
  induction p as [|a p IH].
  - by destruct rest.
  - change (String a p +:+ rest) with (String a (p +:+ rest)).
    change (String.prefix (String a p) (String a (p +:+ rest)))
      with (if ascii_dec a a then String.prefix p (p +:+ rest) else false).
    destruct (ascii_dec a a); [exact IH | done].
Qed.

(** C6. When the declared environment holds an entry that begins with
    [container_uuid=], the synthesizer records the marker [container=other]
    and nothing else: no [container_uuid] value is recorded, whatever the
    container id and the sandbox annotations are. *)
Theorem setSystemdEnvironment_user_value_wins (adjust : ContainerAdjustment.t)
    (pod : option PodSandbox.t) (container : Container.t)
    (value : string) :
  "container_uuid=" +:+ value ∈ Container.Env container ->
  ContainerAdjustment.Env (setSystemdEnvironment adjust pod container)
  = ContainerAdjustment.Env adjust ++ [KeyValue.mk "container" "other"]
  /\ ContainerAdjustment.envValues "container_uuid"
       (setSystemdEnvironment adjust pod container)
     = ContainerAdjustment.envValues "container_uuid" adjust
  /\ ContainerAdjustment.Mounts (setSystemdEnvironment adjust pod container)
     = ContainerAdjustment.Mounts adjust.
Proof.
  intros Hin.
  assert (hasContainerUUID (Container.Env container) = true) as Hdecl.
  { apply hasContainerUUID_true. eexists. split; [exact Hin|].
    apply prefix_app. }
  rewrite (setSystemdEnvironment_declared _ _ _ Hdecl).
  unfold ContainerAdjustment.envValues, ContainerAdjustment.AddEnv.
  cbn [ContainerAdjustment.Env ContainerAdjustment.Mounts].
  split; [done|]. split; [|done].
  rewrite omap_app. cbn. by rewrite app_nil_r.
Qed.

Lemma setSystemdEnvironment_user_value_wins_sample :
  ContainerAdjustment.Env
    (setSystemdEnvironment ContainerAdjustment.zero (Some Samples.podWithUID)
       Samples.userUUID)
  = [KeyValue.mk "container" "other"]
  /\ ContainerAdjustment.envValues "container_uuid"
       (setSystemdEnvironment ContainerAdjustment.zero (Some Samples.podWithUID)
          Samples.userUUID)
     = []
  /\ ContainerAdjustment.Mounts
       (setSystemdEnvironment ContainerAdjustment.zero (Some Samples.podWithUID)
          Samples.userUUID)
     = [].
Proof.
  apply (setSystemdEnvironment_user_value_wins ContainerAdjustment.zero
           (Some Samples.podWithUID) Samples.userUUID "user-value").
  right. left.
Defined.

(** C1. On a request with an empty declared environment, the id [abc123]
    and the sandbox annotation [io.kubernetes.pod.uid = xyz], the handler
    returns an adjustment that records [container_uuid] twice, first with
    the id and then with the pod UID. *)
Theorem CreateContainer_container_uuid_twice :
  exists adjust,
    (CreateContainer (Some Samples.podWithUID) Samples.idAndPodUID
       (world false false)).1 = (Some adjust, None, None)
    /\ ContainerAdjustment.Env adjust
       = [KeyValue.mk "container" "other";
          KeyValue.mk "container_uuid" "abc123";
          KeyValue.mk "container_uuid" "xyz"]
    /\ ContainerAdjustment.envValues "container_uuid" adjust = ["abc123"; "xyz"].
Proof. eexists. split; [vm_compute; reflexivity|]. split; reflexivity. Qed.

(** ** The auxiliary mounts *)

Lemma omap_none {A B : Type} (f : A -> option B) (l : list A) :
  (forall x, x ∈ l -> f x = None) -> omap f l = [].
Proof.
  induction l as [|x l IH]; intros Hl; [done|]. cbn [omap list_omap].
  rewrite (Hl x) by left. apply IH. intros y Hy. apply Hl. by right.
Qed.

(** The mounts the injector records for a container. *)
Lemma tmpfs_added_elem (container : Container.t) (m : Mount.t) :
  m ∈ map (fun e => tmpfsMount e.1 e.2)
          (filter (fun e => e.1 ∉ destinations container) tmpfsMounts)
  <-> exists e, e ∈ tmpfsMounts /\ (e.1 ∉ destinations container)
                /\ m = tmpfsMount e.1 e.2.
Proof.
  change (map ?f ?l) with (f <$> l). rewrite list_elem_of_fmap.
  split; intros (e & H1 & H2); exists e.
  - apply list_elem_of_filter in H2. tauto.
  - split; [tauto|]. apply list_elem_of_filter. tauto.
Qed.

Lemma tmpfsMounts_dest (e : string * string) :
  e ∈ tmpfsMounts ->
  ContainerAdjustment.IsMarkedForRemoval e.1 = None
  /\ e.1 <> "/sys/fs/cgroup".
Proof.
  unfold tmpfsMounts. rewrite !elem_of_cons, elem_of_nil.
  intros [->|[->|[->|[->|[]]]]]; by split.
Qed.

Lemma tmpfs_added_unmarked (container : Container.t) (m : Mount.t) :
  m ∈ map (fun e => tmpfsMount e.1 e.2)
          (filter (fun e => e.1 ∉ destinations container) tmpfsMounts) ->
  ContainerAdjustment.IsMarkedForRemoval (Mount.Destination m) = None
  /\ Mount.Destination m <> "/sys/fs/cgroup".
Proof.
  rewrite tmpfs_added_elem. intros (e & He & _ & ->).
  by apply tmpfsMounts_dest.
Qed.

(** C5. The injector leaves the environment additions alone and appends to
    the mount directives, in catalog order [/run], [/run/lock], [/tmp],
    [/var/log/journal], one tmpfs mount (type [tmpfs], source [tmpfs],
    options [rw], [rprivate], [nosuid], [nodev] and the catalog mode) for
    each catalog destination the container does not declare, and none for a
    destination it declares; a container that declares none of the four
    gets the four mounts. The injector is a total function: it has no error
    result. *)
Theorem addSystemdTmpfsMounts_catalog (adjust : ContainerAdjustment.t)
    (container : Container.t) :
  exists added : list Mount.t,
    addSystemdTmpfsMounts adjust container
    = ContainerAdjustment.mk (ContainerAdjustment.Mounts adjust ++ added)
                             (ContainerAdjustment.Env adjust)
    /\ added
       = (fun e => Mount.mk e.1 "tmpfs" "tmpfs"
                     ["rw"; "rprivate"; "nosuid"; "nodev"; e.2])
         <$> filter (fun e => e.1 ∉ destinations container)
               [("/run", "mode=755"); ("/run/lock", "mode=755");
                ("/tmp", "mode=1777"); ("/var/log/journal", "mode=755")]
    /\ (forall d, d ∈ ["/run"; "/run/lock"; "/tmp"; "/var/log/journal"] ->
          length (filter (fun m => Mount.Destination m = d) added)
          = if decide (d ∈ destinations container) then 0 else 1)
    /\ ((forall d, d ∈ ["/run"; "/run/lock"; "/tmp"; "/var/log/journal"] ->
           d ∉ destinations container) ->
        added
        = [Mount.mk "/run" "tmpfs" "tmpfs"
             ["rw"; "rprivate"; "nosuid"; "nodev"; "mode=755"];
           Mount.mk "/run/lock" "tmpfs" "tmpfs"
             ["rw"; "rprivate"; "nosuid"; "nodev"; "mode=755"];
           Mount.mk "/tmp" "tmpfs" "tmpfs"
             ["rw"; "rprivate"; "nosuid"; "nodev"; "mode=1777"];
           Mount.mk "/var/log/journal" "tmpfs" "tmpfs"
             ["rw"; "rprivate"; "nosuid"; "nodev"; "mode=755"]]).
Proof.
  eexists. split; [apply addSystemdTmpfsMounts_eq|].
  split; [reflexivity|]. unfold tmpfsMounts. split.
  - intros d Hd. rewrite !filter_cons, filter_nil. cbn [fst].
    rewrite !elem_of_cons, elem_of_nil in Hd.
    destruct Hd as [->|[->|[->|[->|[]]]]];
      destruct (decide ("/run" ∈ destinations container));
      destruct (decide ("/run/lock" ∈ destinations container));
      destruct (decide ("/tmp" ∈ destinations container));
      destruct (decide ("/var/log/journal" ∈ destinations container));
      repeat (first [ rewrite decide_True by tauto
                    | rewrite decide_False by tauto ]);
      reflexivity.
  - intros Hnone. rewrite filter_all; [reflexivity|].
    intros [d mode] Hd. cbn [fst]. apply Hnone.
    rewrite !elem_of_cons, elem_of_nil in Hd.
    rewrite !elem_of_cons, elem_of_nil.
    destruct Hd as [E|[E|[E|[E|[]]]]]; injection E as -> _; tauto.
Qed.

Lemma addSystemdTmpfsMounts_catalog_sample :
  addSystemdTmpfsMounts ContainerAdjustment.zero Samples.bash
  = ContainerAdjustment.mk
      [Mount.mk "/run" "tmpfs" "tmpfs"
         ["rw"; "rprivate"; "nosuid"; "nodev"; "mode=755"];
       Mount.mk "/run/lock" "tmpfs" "tmpfs"
         ["rw"; "rprivate"; "nosuid"; "nodev"; "mode=755"];
       Mount.mk "/tmp" "tmpfs" "tmpfs"
         ["rw"; "rprivate"; "nosuid"; "nodev"; "mode=1777"];
       Mount.mk "/var/log/journal" "tmpfs" "tmpfs"
         ["rw"; "rprivate"; "nosuid"; "nodev"; "mode=755"]]
      [].
Proof.
  destruct (addSystemdTmpfsMounts_catalog ContainerAdjustment.zero Samples.bash)
    as (added & Heq & _ & _ & Hfour).
  rewrite Heq, Hfour; [reflexivity|].
  intros d _ Hd. by apply elem_of_nil in Hd.
Defined.

Example addSystemdTmpfsMounts_tmp_declared :
  ContainerAdjustment.Mounts
    (addSystemdTmpfsMounts ContainerAdjustment.zero Samples.noCgroupMount)
  = [tmpfsMount "/run" "mode=755"; tmpfsMount "/run/lock" "mode=755";
     tmpfsMount "/var/log/journal" "mode=755"].
Proof. reflexivity. Qed.

(** ** The cgroup mount *)

Section Views.

Lemma removals_app (ms1 ms2 : list Mount.t) (env : list KeyValue.t) :
  ContainerAdjustment.removals (ContainerAdjustment.mk (ms1 ++ ms2) env)
  = ContainerAdjustment.removals (ContainerAdjustment.mk ms1 env)
    ++ ContainerAdjustment.removals (ContainerAdjustment.mk ms2 env).
Proof. unfold ContainerAdjustment.removals. cbn. apply omap_app. Qed.

Lemma additions_app (ms1 ms2 : list Mount.t) (env : list KeyValue.t) :
  ContainerAdjustment.additions (ContainerAdjustment.mk (ms1 ++ ms2) env)
  = ContainerAdjustment.additions (ContainerAdjustment.mk ms1 env)
    ++ ContainerAdjustment.additions (ContainerAdjustment.mk ms2 env).
Proof. unfold ContainerAdjustment.additions. cbn. apply filter_app. Qed.

(** Environment synthesis leaves both readings of the mounts alone. *)
Lemma removals_setSystemdEnvironment (adjust : ContainerAdjustment.t)
    (pod : option PodSandbox.t) (container : Container.t) :
  ContainerAdjustment.removals (setSystemdEnvironment adjust pod container)
  = ContainerAdjustment.removals adjust.
Proof.
  unfold ContainerAdjustment.removals.
  by rewrite setSystemdEnvironment_Mounts.
Qed.

Lemma additions_setSystemdEnvironment (adjust : ContainerAdjustment.t)
    (pod : option PodSandbox.t) (container : Container.t) :
  ContainerAdjustment.additions (setSystemdEnvironment adjust pod container)
  = ContainerAdjustment.additions adjust.
Proof.
  unfold ContainerAdjustment.additions.
  by rewrite setSystemdEnvironment_Mounts.
Qed.

(** The injector records no removal, and every mount it records is an
    addition at a destination other than [/sys/fs/cgroup]. *)
Lemma removals_addSystemdTmpfsMounts (adjust : ContainerAdjustment.t)
    (container : Container.t) :
  ContainerAdjustment.removals (addSystemdTmpfsMounts adjust container)
  = ContainerAdjustment.removals adjust.
Proof.
  rewrite addSystemdTmpfsMounts_eq, removals_app.
  unfold ContainerAdjustment.removals at 2. cbn [ContainerAdjustment.Mounts].
  rewrite omap_none, app_nil_r; [by destruct adjust|].
  intros m Hm. by apply (tmpfs_added_unmarked container).
Qed.

Lemma additions_addSystemdTmpfsMounts (adjust : ContainerAdjustment.t)
    (container : Container.t) :
  ContainerAdjustment.additions (addSystemdTmpfsMounts adjust container)
  = ContainerAdjustment.additions adjust
    ++ map (fun e => tmpfsMount e.1 e.2)
           (filter (fun e => e.1 ∉ destinations container) tmpfsMounts).
Proof.
  rewrite addSystemdTmpfsMounts_eq, additions_app. f_equal.
  unfold ContainerAdjustment.additions. cbn [ContainerAdjustment.Mounts].
  apply filter_all. intros m Hm. by apply (tmpfs_added_unmarked container).
Qed.

Lemma cgroup_additions_addSystemdTmpfsMounts (adjust : ContainerAdjustment.t)
    (container : Container.t) :
  filter (fun m => Mount.Destination m = "/sys/fs/cgroup")
         (ContainerAdjustment.additions
            (addSystemdTmpfsMounts adjust container))
  = filter (fun m => Mount.Destination m = "/sys/fs/cgroup")
           (ContainerAdjustment.additions adjust).
Proof.
  rewrite additions_addSystemdTmpfsMounts, filter_app.
  rewrite (filter_none _ (map _ _)), app_nil_r; [done|].
  intros m Hm. by apply (tmpfs_added_unmarked container).
Qed.

(** The two directives of a rewrite, read back. *)
Lemma removals_rewrite (m : Mount.t) :
  Mount.Destination m = "/sys/fs/cgroup" ->
  ContainerAdjustment.removals
    (ContainerAdjustment.AddMount m
       (ContainerAdjustment.RemoveMount "/sys/fs/cgroup"
          ContainerAdjustment.zero))
  = ["/sys/fs/cgroup"].
Proof.
  intros Hdest.
  unfold ContainerAdjustment.removals, ContainerAdjustment.AddMount,
    ContainerAdjustment.RemoveMount.
  cbn [ContainerAdjustment.Mounts ContainerAdjustment.zero app
       omap list_omap Mount.Destination].
  rewrite Hdest. reflexivity.
Qed.

Lemma additions_rewrite (m : Mount.t) :
  Mount.Destination m = "/sys/fs/cgroup" ->
  ContainerAdjustment.additions
    (ContainerAdjustment.AddMount m
       (ContainerAdjustment.RemoveMount "/sys/fs/cgroup"
          ContainerAdjustment.zero))
  = [m].
Proof.
  intros Hdest.
  unfold ContainerAdjustment.additions, ContainerAdjustment.AddMount,
    ContainerAdjustment.RemoveMount.
  cbn [ContainerAdjustment.Mounts ContainerAdjustment.zero app].
  rewrite !filter_cons, filter_nil. cbn [Mount.Destination]. rewrite Hdest.
  reflexivity.
Qed.

(** The mount the scan stops at. *)
Lemma findCgroupMount_first (before after : list Mount.t)
    (existingMount : Mount.t) :
  (forall m, m ∈ before -> Mount.Destination m <> "/sys/fs/cgroup") ->
  Mount.Destination existingMount = "/sys/fs/cgroup" ->
  findCgroupMount (before ++ existingMount :: after) = Some existingMount.
Proof.
  intros Hbefore Hdest. unfold findCgroupMount.
  induction before as [|m before IH]; cbn [app find].
  - by rewrite Hdest.
  - destruct (String.eqb _ _) eqn:E.
    + apply String.eqb_eq in E. exfalso. apply (Hbefore m); [left | done].
    + apply IH. intros m' Hm'. apply Hbefore. by right.
Qed.

Lemma findCgroupMount_Some (mounts : list Mount.t) (existingMount : Mount.t) :
  findCgroupMount mounts = Some existingMount ->
  Mount.Destination existingMount = "/sys/fs/cgroup"
  /\ existingMount ∈ mounts.
Proof.
  unfold findCgroupMount. intros H. apply find_some in H as [Hin Heq].
  split; [by apply String.eqb_eq | by apply list_elem_of_In].
Qed.

Lemma rewriteOptions_lookup (existing : list string) (i : nat) (opt : string) :
  existing !! i = Some opt ->
  rewriteOptions existing !! i
  = Some (if decide (opt = "ro") then "rw" else opt).
Proof.
  intros Hi. rewrite rewriteOptions_map.
  change (map ?f ?l) with (f <$> l). rewrite list_lookup_fmap, Hi. cbn.
  f_equal. destruct (String.eqb opt "ro") eqn:E.
  - apply String.eqb_eq in E. by rewrite decide_True.
  - apply String.eqb_neq in E. by rewrite decide_False.
Qed.

Lemma rewriteOptions_length (existing : list string) :
  length (rewriteOptions existing) = length existing.
Proof. rewrite rewriteOptions_map. apply length_map. Qed.

End Views.

(** C3. For a detected systemd container on a host with a cgroup
    filesystem, let [existingMount] be the first declared mount at
    [/sys/fs/cgroup]. The handler returns an adjustment. When
    [existingMount] has the option [ro], the adjustment holds one removal,
    the one of [/sys/fs/cgroup], and one addition at [/sys/fs/cgroup], whose
    destination, type and source are those of [existingMount] and whose
    options are those of [existingMount], position by position, with [rw]
    in the place of every [ro]. When it has no [ro], the adjustment holds no
    removal and no addition at [/sys/fs/cgroup]. *)
Theorem CreateContainer_cgroup_rewrite (pod : option PodSandbox.t)
    (container : Container.t) (w : World)
    (before after : list Mount.t) (existingMount : Mount.t) :
  isSystemdContainer container = true ->
  cgroupfsNotExist w = false ->
  Container.Mounts container = before ++ existingMount :: after ->
  (forall m, m ∈ before -> Mount.Destination m <> "/sys/fs/cgroup") ->
  Mount.Destination existingMount = "/sys/fs/cgroup" ->
  exists adjust,
    (CreateContainer pod container w).1 = (Some adjust, None, None)
    /\ ("ro" ∈ Mount.Options existingMount ->
        ContainerAdjustment.removals adjust = ["/sys/fs/cgroup"]
        /\ exists added,
             filter (fun m => Mount.Destination m = "/sys/fs/cgroup")
                    (ContainerAdjustment.additions adjust) = [added]
             /\ Mount.Destination added = Mount.Destination existingMount
             /\ Mount.Type_ added = Mount.Type_ existingMount
             /\ Mount.Source added = Mount.Source existingMount
             /\ length (Mount.Options added)
                = length (Mount.Options existingMount)
             /\ forall i opt,
                  Mount.Options existingMount !! i = Some opt ->
                  Mount.Options added !! i
                  = Some (if decide (opt = "ro") then "rw" else opt))
    /\ ("ro" ∉ Mount.Options existingMount ->
        ContainerAdjustment.removals adjust = []
        /\ filter (fun m => Mount.Destination m = "/sys/fs/cgroup")
                  (ContainerAdjustment.additions adjust) = []).
Proof.
  intros Hdet Hhost Hmounts Hbefore Hdest.
  rewrite CreateContainer_response, Hdet, configureCgroupMount_result, Hhost.
  rewrite Hmounts, (findCgroupMount_first _ _ _ Hbefore Hdest).
  destruct (hasRO (Mount.Options existingMount)) eqn:Hro.
  - eexists. split; [reflexivity|].
    rewrite removals_setSystemdEnvironment, additions_setSystemdEnvironment.
    rewrite removals_addSystemdTmpfsMounts,
      cgroup_additions_addSystemdTmpfsMounts.
    split.
    + intros _. rewrite removals_rewrite, additions_rewrite by exact Hdest.
      split; [reflexivity|]. eexists. split.
      * rewrite filter_cons, filter_nil. cbn [Mount.Destination].
        by rewrite decide_True by exact Hdest.
      * cbn [Mount.Destination Mount.Type_ Mount.Source Mount.Options].
        rewrite Hdest. repeat split.
        -- apply rewriteOptions_length.
        -- apply rewriteOptions_lookup.
    + intros Hno. apply hasRO_false in Hno. congruence.
  - eexists. split; [reflexivity|].
    rewrite removals_setSystemdEnvironment, additions_setSystemdEnvironment.
    rewrite removals_addSystemdTmpfsMounts,
      cgroup_additions_addSystemdTmpfsMounts.
    split.
    + intros Hin. apply hasRO_true in Hin. congruence.
    + intros _. split; reflexivity.
Qed.

Lemma CreateContainer_cgroup_rewrite_sample :
  exists adjust,
    (CreateContainer (Some Samples.testPod) Samples.readOnlyCgroup
       (world false false)).1 = (Some adjust, None, None)
    /\ ContainerAdjustment.removals adjust = ["/sys/fs/cgroup"]
    /\ exists added,
         filter (fun m => Mount.Destination m = "/sys/fs/cgroup")
                (ContainerAdjustment.additions adjust) = [added]
         /\ Mount.Destination added = "/sys/fs/cgroup"
         /\ Mount.Type_ added = "cgroup"
         /\ Mount.Source added = "cgroup"
         /\ length (Mount.Options added) = 5
         /\ Mount.Options added !! 3 = Some "relatime"
         /\ Mount.Options added !! 4 = Some "rw".
Proof.
  destruct (CreateContainer_cgroup_rewrite (Some Samples.testPod)
              Samples.readOnlyCgroup (world false false)
              [Mount.mk "/tmp" "bind" "/scratch" ["rw"]] []
              (Samples.cgroupMount
                 ["nosuid"; "noexec"; "nodev"; "relatime"; "ro"]))
    as (adjust & Hresp & Hro & _).
  - reflexivity.
  - reflexivity.
  - reflexivity.
  - intros m Hm. apply list_elem_of_singleton in Hm. subst m. discriminate.
  - reflexivity.
  - destruct Hro as (Hrem & added & Hadd & Hd & Ht & Hs & Hlen & Hopts).
    + cbn [Samples.cgroupMount Mount.Options]. do 4 right. left.
    + exists adjust. split; [exact Hresp|]. split; [exact Hrem|].
      exists added. repeat split; try done.
      * exact (Hopts 3 "relatime" eq_refl).
      * exact (Hopts 4 "ro" eq_refl).
Defined.

(** ** The synthesizer and what was recorded before it *)

Lemma setSystemdEnvironment_Env (a1 a2 : ContainerAdjustment.t)
    (pod : option PodSandbox.t) (container : Container.t) :
  ContainerAdjustment.Env a1 = ContainerAdjustment.Env a2 ->
  ContainerAdjustment.Env (setSystemdEnvironment a1 pod container)
  = ContainerAdjustment.Env (setSystemdEnvironment a2 pod container).
Proof.
  intros E. unfold setSystemdEnvironment, ContainerAdjustment.AddEnv.
  destruct pod as [p|]; [destruct (PodSandbox.Annotations p !! _)|];
    destruct (hasContainerUUID _), (String.eqb (Container.Id container) "");
    cbn; by rewrite E.
Qed.

Lemma marker_recorded (adjust : ContainerAdjustment.t)
    (pod : option PodSandbox.t) (container : Container.t) :
  KeyValue.mk "container" "other"
  ∈ ContainerAdjustment.Env (setSystemdEnvironment adjust pod container).
Proof.
  unfold setSystemdEnvironment, ContainerAdjustment.AddEnv.
  destruct pod as [p|]; [destruct (PodSandbox.Annotations p !! _)|];
    destruct (hasContainerUUID _), (String.eqb (Container.Id container) "");
    cbn; rewrite ?elem_of_app, ?elem_of_cons; tauto.
Qed.

(** ** Running the engine on its own result *)

Section Rerun.

Lemma isSystemdContainer_Args (c1 c2 : Container.t) :
  Container.Args c1 = Container.Args c2 ->
  isSystemdContainer c1 = isSystemdContainer c2.
Proof. intros E. unfold isSystemdContainer. by rewrite E. Qed.

Lemma findCgroupMount_app_l (ms1 ms2 : list Mount.t) (m : Mount.t) :
  findCgroupMount ms1 = Some m -> findCgroupMount (ms1 ++ ms2) = Some m.
Proof.
  unfold findCgroupMount. induction ms1 as [|x ms1 IH]; cbn [app find];
    [discriminate|].
  destruct (String.eqb _ _); [done | exact IH].
Qed.

(** After the adjustment is applied, every catalog destination is
    declared: either it was, and only [/sys/fs/cgroup] was removed, or the
    injector's mount for it is among the additions. *)
Lemma catalog_declared_after (container container' : Container.t)
    (removed : list string) (added : list Mount.t) :
  (forall d, d ∈ removed -> d = "/sys/fs/cgroup") ->
  (forall m, m ∈ map (fun e => tmpfsMount e.1 e.2)
                     (filter (fun e => e.1 ∉ destinations container)
                             tmpfsMounts) -> m ∈ added) ->
  Container.Mounts container'
  = filter (fun m => Mount.Destination m ∉ removed)
           (Container.Mounts container) ++ added ->
  forall e, e ∈ tmpfsMounts -> e.1 ∈ destinations container'.
Proof.
  intros Hremoved Hadded Hmounts e He. unfold destinations.
  rewrite Hmounts, fmap_app, elem_of_app.
  destruct (decide (e.1 ∈ destinations container)) as [Hin|Hnin].
  - left. unfold destinations in Hin.
    apply list_elem_of_fmap in Hin as (m & Hd & Hm).
    apply list_elem_of_fmap. exists m. split; [done|].
    apply list_elem_of_filter. split; [|done].
    intros Hr. apply Hremoved in Hr.
    apply (tmpfsMounts_dest e He). congruence.
  - right. apply list_elem_of_fmap. exists (tmpfsMount e.1 e.2).
    split; [done|]. apply Hadded, tmpfs_added_elem. by exists e.
Qed.

(** What a successful first run recorded, by the cgroup step taken. *)
Lemma CreateContainer_Some (pod : option PodSandbox.t)
    (container : Container.t) (w : World) (adjust : ContainerAdjustment.t) :
  (CreateContainer pod container w).1 = (Some adjust, None, None) ->
  isSystemdContainer container = true
  /\ exists adjust0,
       (configureCgroupMount ContainerAdjustment.zero container
          (containerName pod container) w).1 = (adjust0, None)
       /\ adjust = setSystemdEnvironment
                     (addSystemdTmpfsMounts adjust0 container) pod container.
Proof.
  rewrite CreateContainer_response.
  destruct (isSystemdContainer container); [|discriminate].
  destruct (configureCgroupMount _ _ _ _).1 as [adjust0 [err|]];
    [discriminate|].
  intros E. injection E as <-. split; [done|]. by exists adjust0.
Qed.

End Rerun.

(** C9. Take a request the handler answers with an adjustment, apply the
    adjustment's mount directives to the declared mounts (drop the mounts at
    removed destinations, append the added mounts) and run the handler again
    on a container with these mounts and the same arguments, on the same
    host. The second run succeeds and its adjustment holds no mount
    directive at all: no removal, so no second cgroup rewrite, and no
    addition, so no auxiliary mount is added again. *)
Theorem CreateContainer_rerun_no_mount_directive
    (pod pod' : option PodSandbox.t) (container container' : Container.t)
    (w w' : World) (adjust : ContainerAdjustment.t) :
  (CreateContainer pod container w).1 = (Some adjust, None, None) ->
  Container.Args container' = Container.Args container ->
  Container.Mounts container'
  = applyMounts adjust (Container.Mounts container) ->
  cgroupfsNotExist w' = cgroupfsNotExist w ->
  exists adjust',
    (CreateContainer pod' container' w').1 = (Some adjust', None, None)
    /\ ContainerAdjustment.Mounts adjust' = []
    /\ ContainerAdjustment.removals adjust' = []
    /\ ContainerAdjustment.additions adjust' = [].
Proof.
  intros Hfirst Hargs Hmounts Hhost.
  apply CreateContainer_Some in Hfirst as (Hdet & adjust0 & Hcg & ->).
  rewrite configureCgroupMount_result in Hcg.
  unfold applyMounts in Hmounts.
  rewrite removals_setSystemdEnvironment, additions_setSystemdEnvironment,
    removals_addSystemdTmpfsMounts, additions_addSystemdTmpfsMounts in Hmounts.
  assert ((configureCgroupMount ContainerAdjustment.zero container'
             (containerName pod' container') w').1
          = (ContainerAdjustment.zero, None)
          /\ forall e, e ∈ tmpfsMounts -> e.1 ∈ destinations container')
    as [Hcg' Hdeclared].
  { rewrite configureCgroupMount_result, Hhost.
    destruct (cgroupfsNotExist w).
    - injection Hcg as <-. split; [done|].
      eapply catalog_declared_after; [| |exact Hmounts].
      + intros d Hd. by apply elem_of_nil in Hd.
      + intros m Hm. exact Hm.
    - destruct (findCgroupMount (Container.Mounts container))
        as [existingMount|] eqn:Hfind; [|discriminate].
      destruct (findCgroupMount_Some _ _ Hfind) as [Hdest _].
      destruct (hasRO (Mount.Options existingMount)) eqn:Hro.
      + injection Hcg as <-.
        rewrite removals_rewrite, additions_rewrite in Hmounts by exact Hdest.
        split.
        * rewrite Hmounts. cbn [app]. rewrite findCgroupMount_first.
          -- cbn [Mount.Options]. by rewrite hasRO_rewriteOptions.
          -- intros m Hm. apply list_elem_of_filter in Hm as [Hm _].
             intros E. apply Hm. rewrite E. left.
          -- done.
        * eapply catalog_declared_after; [| |exact Hmounts].
          -- intros d Hd. apply list_elem_of_singleton in Hd. exact Hd.
          -- intros m Hm. apply elem_of_app. by right.
      + injection Hcg as <-. split.
        * rewrite Hmounts.
          rewrite (filter_all _ (Container.Mounts container))
            by (intros m _ Hm; by apply elem_of_nil in Hm).
          rewrite (findCgroupMount_app_l _ _ _ Hfind). by rewrite Hro.
        * eapply catalog_declared_after; [| |exact Hmounts].
          -- intros d Hd. by apply elem_of_nil in Hd.
          -- intros m Hm. exact Hm. }
  rewrite CreateContainer_response, (isSystemdContainer_Args _ _ Hargs), Hdet.
  rewrite Hcg'. eexists. split; [reflexivity|].
  rewrite removals_setSystemdEnvironment, additions_setSystemdEnvironment,
    setSystemdEnvironment_Mounts.
  by rewrite (addSystemdTmpfsMounts_all_declared _ _ Hdeclared).
Qed.

Lemma CreateContainer_rerun_sample :
  exists adjust',
    (CreateContainer (Some Samples.testPod)
       (Container.mk "test-container-id-12345" "test-container-systemd"
          ["/lib/systemd/systemd"; "--system"] ["PATH=/usr/bin"]
          [Mount.mk "/tmp" "bind" "/scratch" ["rw"];
           Samples.cgroupMount ["nosuid"; "noexec"; "nodev"; "relatime"; "rw"];
           tmpfsMount "/run" "mode=755"; tmpfsMount "/run/lock" "mode=755";
           tmpfsMount "/var/log/journal" "mode=755"] ∅)
       (world false false)).1 = (Some adjust', None, None)
    /\ ContainerAdjustment.Mounts adjust' = []
    /\ ContainerAdjustment.removals adjust' = []
    /\ ContainerAdjustment.additions adjust' = [].
Proof.
  apply (CreateContainer_rerun_no_mount_directive
           (Some Samples.testPod) (Some Samples.testPod)
           Samples.readOnlyCgroup _ (world false false) (world false false)
           (ContainerAdjustment.mk
              [Mount.mk "-/sys/fs/cgroup" "" "" [];
               Samples.cgroupMount
                 ["nosuid"; "noexec"; "nodev"; "relatime"; "rw"];
               tmpfsMount "/run" "mode=755"; tmpfsMount "/run/lock" "mode=755";
               tmpfsMount "/var/log/journal" "mode=755"]
              [KeyValue.mk "container" "other";
               KeyValue.mk "container_uuid" "test-container-id-12345"]));
    reflexivity.
Defined.

(** ** The absent sandbox *)

(** C10. With a nil sandbox the handler still answers. The label is the
    bare container name; the synthesizer records [container=other] and, when
    the container declares no [container_uuid] and has an id, that id, and
    nothing from annotations. The response is the one given with any sandbox
    that lacks the [io.kubernetes.pod.uid] annotation, and against every
    sandbox the updates, the error and the mount directives are the same. *)
Theorem CreateContainer_nil_sandbox (container : Container.t) (w : World)
    (pod : PodSandbox.t) :
  PodSandbox.Annotations pod !! "io.kubernetes.pod.uid" = None ->
  containerName None container = Container.Name container
  /\ (forall adjust,
        ContainerAdjustment.Mounts (setSystemdEnvironment adjust None container)
        = ContainerAdjustment.Mounts adjust
        /\ ContainerAdjustment.Env (setSystemdEnvironment adjust None container)
           = ContainerAdjustment.Env adjust
             ++ KeyValue.mk "container" "other"
                :: (if negb (hasContainerUUID (Container.Env container))
                       && negb (String.eqb (Container.Id container) "")
                    then [KeyValue.mk "container_uuid" (Container.Id container)]
                    else []))
  /\ (CreateContainer None container w).1
     = (CreateContainer (Some pod) container w).1
  /\ (forall pod' : option PodSandbox.t,
        (CreateContainer None container w).1.1.2
        = (CreateContainer pod' container w).1.1.2
        /\ (CreateContainer None container w).1.2
           = (CreateContainer pod' container w).1.2
        /\ ContainerAdjustment.Mounts <$> (CreateContainer None container w).1.1.1
           = ContainerAdjustment.Mounts
               <$> (CreateContainer pod' container w).1.1.1).
Proof.
  intros Hann. split; [reflexivity|]. split; [|split].
  - intros adjust. rewrite setSystemdEnvironment_no_uid by discriminate.
    destruct (negb _ && negb _); cbn; [|done].
    by rewrite <- app_assoc.
  - rewrite !CreateContainer_response.
    destruct (isSystemdContainer container); [|done].
    rewrite (configureCgroupMount_same _ _ (containerName None container)
               (containerName (Some pod) container) w w) by done.
    destruct (configureCgroupMount _ _ _ _).1 as [adjust [err|]]; [done|].
    rewrite !setSystemdEnvironment_no_uid; [done| |discriminate].
    intros p E. by injection E as <-.
  - intros pod'. rewrite !CreateContainer_response.
    destruct (isSystemdContainer container); [|done].
    rewrite (configureCgroupMount_same _ _ (containerName None container)
               (containerName pod' container) w w) by done.
    destruct (configureCgroupMount _ _ _ _).1 as [adjust [err|]]; [done|].
    cbn [fst snd fmap option_fmap option_map].
    by rewrite !setSystemdEnvironment_Mounts.
Qed.

Lemma CreateContainer_nil_sandbox_sample :
  containerName None Samples.sbinInit = "test-container-systemd"
  /\ (CreateContainer None Samples.sbinInit (world false false)).1
     = (CreateContainer (Some Samples.testPod) Samples.sbinInit
          (world false false)).1
  /\ ContainerAdjustment.Env
       (setSystemdEnvironment ContainerAdjustment.zero None Samples.sbinInit)
     = [KeyValue.mk "container" "other";
        KeyValue.mk "container_uuid" "test-container-id-12345"].
Proof.
  destruct (CreateContainer_nil_sandbox Samples.sbinInit (world false false)
              Samples.testPod) as (Hname & Henv & Hresp & _).
  - reflexivity.
  - split; [exact Hname|]. split; [exact Hresp|].
    exact (proj2 (Henv ContainerAdjustment.zero)).
Defined.

(** ** The handler's outcomes *)

Lemma findCgroupMount_None_iff (mounts : list Mount.t) :
  findCgroupMount mounts = None
  <-> "/sys/fs/cgroup" ∉ (Mount.Destination <$> mounts).
Proof.
  split.
  - intros Hnone Hin. apply list_elem_of_fmap in Hin as (m & Hd & Hm).
    apply list_elem_of_In in Hm.
    apply (find_none _ _ Hnone) in Hm. cbv beta in Hm.
    rewrite <- Hd in Hm. by rewrite String.eqb_refl in Hm.
  - intros Hnin. apply findCgroupMount_None. intros m Hm Hd.
    apply Hnin, list_elem_of_fmap. by exists m.
Qed.

(** The response in full, by the path taken. *)
Lemma CreateContainer_paths (pod : option PodSandbox.t)
    (container : Container.t) (w : World) :
  (CreateContainer pod container w).1
  = if negb (isSystemdContainer container) then (None, None, None)
    else if cgroupfsNotExist w
         || bool_decide ("/sys/fs/cgroup" ∈ destinations container)
    then (Some (setSystemdEnvironment
                  (addSystemdTmpfsMounts
                     (configureCgroupMount ContainerAdjustment.zero container
                        (containerName pod container) w).1.1 container)
                  pod container), None, None)
    else (None, None, Some "cgroup mount required for systemd container").
Proof.
  rewrite CreateContainer_response.
  destruct (isSystemdContainer container); [|done]. cbn [negb].
  rewrite configureCgroupMount_result.
  destruct (cgroupfsNotExist w); [done|]. cbn [orb].
  destruct (findCgroupMount (Container.Mounts container)) as [m|] eqn:Hfind.
  - rewrite bool_decide_eq_true_2.
    + by destruct (hasRO _).
    + destruct (decide ("/sys/fs/cgroup" ∈ destinations container)); [done|].
      apply findCgroupMount_None_iff in n. congruence.
  - rewrite bool_decide_eq_false_2; [done|].
    by apply findCgroupMount_None_iff.
Qed.

(** X1. The handler never answers with updates and never with both an
    adjustment and an error; it answers with one of the two exactly when
    the detector accepts the container. *)
Theorem CreateContainer_outcome (pod : option PodSandbox.t)
    (container : Container.t) (w : World) :
  (CreateContainer pod container w).1.1.2 = None
  /\ ((CreateContainer pod container w).1.1.1 = None
      \/ (CreateContainer pod container w).1.2 = None)
  /\ (isSystemdContainer container = true
      <-> is_Some (CreateContainer pod container w).1.1.1
          \/ is_Some (CreateContainer pod container w).1.2).
Proof.
  rewrite CreateContainer_paths.
  destruct (isSystemdContainer container); cbn [negb].
  - destruct (_ || _); cbn [fst snd].
    + split; [done|]. split; [by right|]. split; [|done]. intros _. left. eauto.
    + split; [done|]. split; [by left|]. split; [|done]. intros _. right. eauto.
  - cbn [fst snd]. split; [done|]. split; [by left|].
    split; [discriminate|]. intros [[? ?]|[? ?]]; discriminate.
Qed.

(** X2. The one error: it is raised exactly for a detected container that
    declares no mount at [/sys/fs/cgroup] on a host whose cgroup filesystem
    exists, and it always carries the same message. *)
Theorem CreateContainer_error_iff (pod : option PodSandbox.t)
    (container : Container.t) (w : World) :
  (is_Some (CreateContainer pod container w).1.2
   <-> isSystemdContainer container = true
       /\ cgroupfsNotExist w = false
       /\ "/sys/fs/cgroup" ∉ destinations container)
  /\ (CreateContainer pod container w).1.2
     ∈ [None; Some "cgroup mount required for systemd container"].
Proof.
  rewrite CreateContainer_paths.
  destruct (isSystemdContainer container); cbn [negb].
  - destruct (cgroupfsNotExist w); cbn [orb fst snd].
    + split; [|left]. split; [intros [? ?]; discriminate|].
      intros (_ & ? & _); discriminate.
    + destruct (bool_decide _) eqn:E; cbn [fst snd].
      * apply bool_decide_eq_true in E. split; [|left].
        split; [intros [? ?]; discriminate|]. intros (_ & _ & ?); contradiction.
      * apply bool_decide_eq_false in E. split; [|right; left].
        split; [done|]. eauto.
  - cbn [fst snd]. split; [|left].
    split; [intros [? ?]; discriminate|]. intros (? & _); discriminate.
Qed.

(** X3. Neither the verbosity nor what was logged before changes the
    response: on the same host, any two runs answer alike. *)
Theorem CreateContainer_response_same_host (pod : option PodSandbox.t)
    (container : Container.t) (w1 w2 : World) :
  cgroupfsNotExist w1 = cgroupfsNotExist w2 ->
  (CreateContainer pod container w1).1 = (CreateContainer pod container w2).1.
Proof.
  intros Hhost. rewrite !CreateContainer_response.
  by rewrite (configureCgroupMount_same _ _ _ (containerName pod container)
                w1 w2 Hhost).
Qed.

Lemma CreateContainer_response_same_host_sample :
  (CreateContainer (Some Samples.testPod) Samples.readOnlyCgroup
     (mkWorld true false [Infof "earlier"])).1
  = (CreateContainer (Some Samples.testPod) Samples.readOnlyCgroup
       (world false false)).1.
Proof.
  apply (CreateContainer_response_same_host (Some Samples.testPod)
           Samples.readOnlyCgroup (mkWorld true false [Infof "earlier"])
           (world false false)).
  reflexivity.
Defined.

(** ** What the handler logs *)

Ltac run_handler :=
  unfold CreateContainer, configureCgroupMount, mbind, M_bind, getVerbose,
    statCgroupfsNotExist, when, logCall, mret, M_ret;
  cbn [verbose cgroupfsNotExist logged negb fst snd].

Ltac handler_case :=
  match goal with
  | |- context [isSystemdContainer ?c] => destruct (isSystemdContainer c)
  | |- context [findCgroupMount ?ms] => destruct (findCgroupMount ms)
  | |- context [hasRO ?opts] => destruct (hasRO opts)
  end.

Ltac handler_cases :=
  repeat first
    [ progress cbn [verbose cgroupfsNotExist logged negb fst snd]
    | handler_case ].

(** The logger calls of one request, in order. *)
Lemma CreateContainer_logged (pod : option PodSandbox.t)
    (container : Container.t) (w : World) :
  logged (CreateContainer pod container w).2
  = logged w
    ++ (if verbose w
        then [Dump [AnyString "CreateContainer"; AnyString "pod"; AnyPod pod;
                    AnyString "container"; AnyContainer container]]
        else [])
    ++ (if isSystemdContainer container then
          (if cgroupfsNotExist w then
             Errorf (containerName pod container
                     +:+ ": cgroup filesystem not available at /sys/fs/cgroup - skipping systemd support")
           else
             match findCgroupMount (Container.Mounts container) with
             | None =>
                 Errorf (containerName pod container
                         +:+ ": no existing cgroup mount found - systemd requires /sys/fs/cgroup")
             | Some existingMount =>
                 if hasRO (Mount.Options existingMount)
                 then Debugf (containerName pod container
                              +:+ ": changed cgroup mount from ro to rw")
                 else Debugf (containerName pod container
                              +:+ ": cgroup mount already has rw, skipping")
             end)
          :: match (CreateContainer pod container w).1.1.1 with
             | Some adjust =>
                 [if verbose w
                  then Dump [AnyString (containerName pod container);
                             AnyString "ContainerAdjustment";
                             AnyAdjustment adjust]
                  else Infof (containerName pod container
                              +:+ ": systemd support configured")]
             | None => []
             end
        else if verbose w
             then [Infof (containerName pod container
                          +:+ ": not a systemd container, skipping")]
             else []).
Proof.
  destruct w as [[|] [|] lg]; run_handler; handler_cases;
    cbn [app]; rewrite <- ?app_assoc, ?app_nil_r; reflexivity.
Qed.

Lemma CreateContainer_flags (pod : option PodSandbox.t)
    (container : Container.t) (w : World) :
  verbose (CreateContainer pod container w).2 = verbose w
  /\ cgroupfsNotExist (CreateContainer pod container w).2 = cgroupfsNotExist w.
Proof.
  destruct w as [[|] [|] lg]; run_handler; handler_cases; split; reflexivity.
Qed.

(** X4. One request leaves the verbosity and the host as they are and only
    appends to the log. What the handler itself appends is at most two
    calls of the logger and at most two calls of [dump] (whose own logger
    calls are not counted here). When not verbose it never calls [dump], so
    it makes at most two logger calls in all; when verbose it calls the
    logger itself at most once. *)
Theorem CreateContainer_log_grows (pod : option PodSandbox.t)
    (container : Container.t) (w : World) :
  verbose (CreateContainer pod container w).2 = verbose w
  /\ cgroupfsNotExist (CreateContainer pod container w).2 = cgroupfsNotExist w
  /\ exists new,
       logged (CreateContainer pod container w).2 = logged w ++ new
       /\ length (List.filter (fun c => negb (isDump c)) new) <= 2
       /\ length (List.filter isDump new) <= 2
       /\ (verbose w = false ->
           length new <= 2 /\ List.filter isDump new = [])
       /\ (verbose w = true ->
           length (List.filter (fun c => negb (isDump c)) new) <= 1).
Proof.
  destruct (CreateContainer_flags pod container w) as [Hv Hh].
  split; [exact Hv|]. split; [exact Hh|].
  eexists. split; [apply CreateContainer_logged|].
  destruct (verbose w), (isSystemdContainer container),
    ((CreateContainer pod container w).1.1.1), (cgroupfsNotExist w);
    try destruct (findCgroupMount (Container.Mounts container)) as [m|];
    try destruct (hasRO (Mount.Options m));
    cbn [app List.filter isDump negb length];
    repeat split; try lia; try discriminate; intros _; try lia; reflexivity.
Qed.

(** X5. A request for a container that is not systemd, when not verbose,
    leaves no trace at all. *)
Theorem CreateContainer_quiet_skip (pod : option PodSandbox.t)
    (container : Container.t) (w : World) :
  verbose w = false ->
  isSystemdContainer container = false ->
  (CreateContainer pod container w).2 = w.
Proof.
  intros Hv Hdet. destruct w as [v host lg]. cbn in Hv. subst v.
  run_handler. rewrite Hdet. reflexivity.
Qed.

Lemma CreateContainer_quiet_skip_sample :
  (CreateContainer (Some Samples.testPod) Samples.bash
     (mkWorld false false [Infof "earlier"])).2
  = mkWorld false false [Infof "earlier"].
Proof.
  apply (CreateContainer_quiet_skip (Some Samples.testPod) Samples.bash
           (mkWorld false false [Infof "earlier"])); reflexivity.
Defined.

(** X6. When not verbose, the last thing logged for a detected container
    tells the outcome: the error-level line about the missing cgroup mount
    when the request fails, the info-level line [systemd support configured]
    when an adjustment is returned. *)
Theorem CreateContainer_last_logged (pod : option PodSandbox.t)
    (container : Container.t) (w : World) :
  verbose w = false ->
  isSystemdContainer container = true ->
  last (logged (CreateContainer pod container w).2)
  = Some (match (CreateContainer pod container w).1.2 with
          | Some _ =>
              Errorf (containerName pod container
                      +:+ ": no existing cgroup mount found - systemd requires /sys/fs/cgroup")
          | None =>
              Infof (containerName pod container
                     +:+ ": systemd support configured")
          end).
Proof.
  intros Hv Hdet. rewrite CreateContainer_logged, Hv, Hdet.
  rewrite CreateContainer_response, Hdet, configureCgroupMount_result.
  cbn [app]. rewrite last_app.
  destruct (cgroupfsNotExist w); [reflexivity|].
  destruct (findCgroupMount (Container.Mounts container)) as [m|];
    [|reflexivity].
  destruct (hasRO (Mount.Options m)); reflexivity.
Qed.

Lemma CreateContainer_last_logged_sample :
  last (logged (CreateContainer (Some Samples.testPod) Samples.noCgroupMount
                  (world false false)).2)
  = Some (Errorf "test-pod-systemd/test-container-systemd: no existing cgroup mount found - systemd requires /sys/fs/cgroup").
Proof.
  apply (CreateContainer_last_logged (Some Samples.testPod)
           Samples.noCgroupMount (world false false)); reflexivity.
Defined.

(** ** The environment additions of a returned adjustment *)

Lemma configureCgroupMount_Env (adjust : ContainerAdjustment.t)
    (container : Container.t) (ctrName : string) (w : World) :
  ContainerAdjustment.Env
    (configureCgroupMount adjust container ctrName w).1.1
  = ContainerAdjustment.Env adjust.
Proof.
  rewrite configureCgroupMount_result.
  destruct (cgroupfsNotExist w); [done|].
  destruct (findCgroupMount _) as [m|]; [|done].
  by destruct (hasRO _).
Qed.

Lemma CreateContainer_adjustment (pod : option PodSandbox.t)
    (container : Container.t) (w : World) (adjust : ContainerAdjustment.t) :
  (CreateContainer pod container w).1.1.1 = Some adjust ->
  adjust
  = setSystemdEnvironment
      (addSystemdTmpfsMounts
         (configureCgroupMount ContainerAdjustment.zero container
            (containerName pod container) w).1.1 container)
      pod container.
Proof.
  rewrite CreateContainer_paths.
  destruct (negb _); [discriminate|].
  destruct (_ || _); [|discriminate].
  cbn [fst]. by intros [= <-].
Qed.

Lemma CreateContainer_adjustment_Env (pod : option PodSandbox.t)
    (container : Container.t) (w : World) (adjust : ContainerAdjustment.t) :
  (CreateContainer pod container w).1.1.1 = Some adjust ->
  ContainerAdjustment.Env adjust
  = ContainerAdjustment.Env
      (setSystemdEnvironment ContainerAdjustment.zero pod container).
Proof.
  intros ->%CreateContainer_adjustment. apply setSystemdEnvironment_Env.
  by rewrite addSystemdTmpfsMounts_eq, configureCgroupMount_Env.
Qed.

(** X7. Every returned adjustment records [container=other] first and once;
    whatever follows, at most two entries, is for [container_uuid]. *)
Theorem CreateContainer_marker_first (pod : option PodSandbox.t)
    (container : Container.t) (w : World) (adjust : ContainerAdjustment.t) :
  (CreateContainer pod container w).1.1.1 = Some adjust ->
  exists rest,
    ContainerAdjustment.Env adjust = KeyValue.mk "container" "other" :: rest
    /\ length rest <= 2
    /\ (forall kv, kv ∈ rest -> KeyValue.Key kv = "container_uuid")
    /\ ContainerAdjustment.envValues "container" adjust = ["other"].
Proof.
  intros Hadj. unfold ContainerAdjustment.envValues.
  rewrite (CreateContainer_adjustment_Env _ _ _ _ Hadj).
  unfold setSystemdEnvironment, ContainerAdjustment.AddEnv.
  destruct pod as [p|]; [destruct (PodSandbox.Annotations p !! _)|];
    destruct (hasContainerUUID _), (String.eqb (Container.Id container) "");
    cbn; eexists; (split; [reflexivity|]); cbn [length];
    (split; [lia|]); (split; [|reflexivity]);
    intros kv Hkv; rewrite ?elem_of_cons, ?elem_of_nil in Hkv;
    intuition (subst; reflexivity).
Qed.

Lemma CreateContainer_marker_first_sample :
  exists rest,
    ContainerAdjustment.Env
      (ContainerAdjustment.mk
         [tmpfsMount "/run" "mode=755"; tmpfsMount "/run/lock" "mode=755";
          tmpfsMount "/tmp" "mode=1777";
          tmpfsMount "/var/log/journal" "mode=755"]
         [KeyValue.mk "container" "other";
          KeyValue.mk "container_uuid" "test-container-id-12345"])
    = KeyValue.mk "container" "other" :: rest
    /\ length rest <= 2
    /\ (forall kv, kv ∈ rest -> KeyValue.Key kv = "container_uuid")
    /\ ContainerAdjustment.envValues "container"
         (ContainerAdjustment.mk
            [tmpfsMount "/run" "mode=755"; tmpfsMount "/run/lock" "mode=755";
             tmpfsMount "/tmp" "mode=1777";
             tmpfsMount "/var/log/journal" "mode=755"]
            [KeyValue.mk "container" "other";
             KeyValue.mk "container_uuid" "test-container-id-12345"])
       = ["other"].
Proof.
  apply (CreateContainer_marker_first (Some Samples.testPod) Samples.sbinInit
           (world false false)).
  reflexivity.
Defined.

(** X8. When the container declares no [container_uuid] and at most one of
    the two sources is there (the id is empty, or there is no sandbox or no
    pod UID annotation), the one source that is there is recorded, once: the
    id if not empty, else the pod UID if annotated, else nothing. *)
Theorem CreateContainer_single_source (pod : option PodSandbox.t)
    (container : Container.t) (w : World) (adjust : ContainerAdjustment.t) :
  (CreateContainer pod container w).1.1.1 = Some adjust ->
  hasContainerUUID (Container.Env container) = false ->
  Container.Id container = ""
  \/ pod ≫= (fun p => PodSandbox.Annotations p !! "io.kubernetes.pod.uid")
     = None ->
  ContainerAdjustment.envValues "container_uuid" adjust
  = if decide (Container.Id container = "")
    then option_list
           (pod ≫= (fun p => PodSandbox.Annotations p !! "io.kubernetes.pod.uid"))
    else [Container.Id container].
Proof.
  intros Hadj Hdecl Hone. unfold ContainerAdjustment.envValues.
  rewrite (CreateContainer_adjustment_Env _ _ _ _ Hadj).
  unfold setSystemdEnvironment, ContainerAdjustment.AddEnv. rewrite Hdecl.
  destruct (decide (Container.Id container = "")) as [Hid|Hid].
  - rewrite Hid. destruct pod as [p|]; [|reflexivity]. cbn [mbind option_bind].
    by destruct (PodSandbox.Annotations p !! _).
  - destruct Hone as [?|Hnone]; [done|].
    apply String.eqb_neq in Hid. rewrite Hid.
    destruct pod as [p|]; [|reflexivity]. cbn [mbind option_bind] in Hnone.
    by rewrite Hnone.
Qed.

Lemma CreateContainer_single_source_sample :
  ContainerAdjustment.envValues "container_uuid"
    (ContainerAdjustment.mk
       [tmpfsMount "/run" "mode=755"; tmpfsMount "/run/lock" "mode=755";
        tmpfsMount "/tmp" "mode=1777"; tmpfsMount "/var/log/journal" "mode=755"]
       [KeyValue.mk "container" "other"; KeyValue.mk "container_uuid" "xyz"])
  = ["xyz"].
Proof.
  apply (CreateContainer_single_source (Some Samples.podWithUID)
           (Container.mk "" "test-container-systemd" ["/sbin/init"] []
              [Samples.cgroupMount ["rw"]] ∅)
           (world false false)).
  - reflexivity.
  - reflexivity.
  - left. reflexivity.
Defined.

Lemma prefix_split (p s : string) :
  String.prefix p s = true -> exists rest, s = p +:+ rest.
Proof.
  revert s. induction p as [|a p IH]; intros s Hp.
  - by exists s.
  - destruct s as [|b s]; [discriminate|].
    change (String.prefix (String a p) (String b s))
      with (if ascii_dec a b then String.prefix p s else false) in Hp.
    destruct (ascii_dec a b) as [->|]; [|discriminate].
    destruct (IH s Hp) as [rest ->]. by exists rest.
Qed.

(** X9. The scan for a declared [container_uuid] succeeds exactly when some
    entry of the environment is [container_uuid=] followed by a value, which
    may be empty; it looks at the key only, case as written, and at every
    entry. *)
Theorem hasContainerUUID_iff (env : list string) :
  hasContainerUUID env = true
  <-> exists value, "container_uuid=" +:+ value ∈ env.
Proof.
  rewrite hasContainerUUID_true. split.
  - intros (e & He & Hp). destruct (prefix_split _ _ Hp) as [value ->].
    by exists value.
  - intros (value & Hin). eexists. split; [exact Hin|]. apply prefix_app.
Qed.

(** ** The rewritten options *)

(** X10. After the rewrite no option is [ro]; [rw] occurs as often as [rw] and
    [ro] did together; every other option occurs as often as before. *)
Theorem rewriteOptions_tokens (existing : list string) :
  ("ro" ∉ rewriteOptions existing)
  /\ length (filter (fun o => o = "rw") (rewriteOptions existing))
     = length (filter (fun o => o = "rw") existing)
       + length (filter (fun o => o = "ro") existing)
  /\ forall opt, opt <> "ro" -> opt <> "rw" ->
       length (filter (fun o => o = opt) (rewriteOptions existing))
       = length (filter (fun o => o = opt) existing).
Proof.
  split; [apply hasRO_false, hasRO_rewriteOptions|].
  rewrite rewriteOptions_map. split.
  - induction existing as [|o rest IH]; [done|]. cbn [map].
    rewrite !filter_cons. destruct (String.eqb o "ro") eqn:E.
    + apply String.eqb_eq in E. subst o.
      rewrite decide_True by done. rewrite (decide_False (P := "ro" = "rw"))
        by discriminate.
      rewrite decide_True by done. cbn [length]. lia.
    + apply String.eqb_neq in E. rewrite (decide_False (P := o = "ro")) by done.
      destruct (decide (o = "rw")); cbn [length]; lia.
  - intros opt Hro Hrw. induction existing as [|o rest IH]; [done|]. cbn [map].
    rewrite !filter_cons. destruct (String.eqb o "ro") eqn:E.
    + apply String.eqb_eq in E. subst o.
      rewrite !decide_False by congruence. exact IH.
    + destruct (decide (o = opt)); cbn [length]; by rewrite IH.
Qed.

(** X11. The rewrite changes nothing exactly when no option is [ro], and
    rewriting twice is rewriting once. *)
Theorem rewriteOptions_fixpoint (existing : list string) :
  (rewriteOptions existing = existing <-> "ro" ∉ existing)
  /\ rewriteOptions (rewriteOptions existing) = rewriteOptions existing.
Proof.
  assert (forall l : list string, "ro" ∉ l -> rewriteOptions l = l) as Hid.
  { intros l Hl. rewrite rewriteOptions_map.
    induction l as [|o rest IH]; [done|]. cbn [map].
    apply not_elem_of_cons in Hl as [Ho Hrest].
    rewrite IH by done. destruct (String.eqb o "ro") eqn:E; [|done].
    apply String.eqb_eq in E. congruence. }
  split; [split|].
  - intros E. rewrite <- E. apply hasRO_false, hasRO_rewriteOptions.
  - apply Hid.
  - apply Hid, hasRO_false, hasRO_rewriteOptions.
Qed.

(** ** The mount directives of a returned adjustment *)

Lemma CreateContainer_adjustment_Mounts (pod : option PodSandbox.t)
    (container : Container.t) (w : World) (adjust : ContainerAdjustment.t) :
  (CreateContainer pod container w).1.1.1 = Some adjust ->
  ContainerAdjustment.Mounts adjust
  = ContainerAdjustment.Mounts
      (configureCgroupMount ContainerAdjustment.zero container
         (containerName pod container) w).1.1
    ++ map (fun e => tmpfsMount e.1 e.2)
           (filter (fun e => e.1 ∉ destinations container) tmpfsMounts).
Proof.
  intros ->%CreateContainer_adjustment.
  by rewrite setSystemdEnvironment_Mounts, addSystemdTmpfsMounts_eq.
Qed.

Lemma tmpfs_added_NoDup (container : Container.t) :
  NoDup (Mount.Destination
           <$> map (fun e => tmpfsMount e.1 e.2)
                   (filter (fun e => e.1 ∉ destinations container) tmpfsMounts)).
Proof.
  change (map ?f ?l) with (f <$> l). rewrite <- list_fmap_compose.
  apply (sublist_NoDup _ (fst <$> tmpfsMounts)).
  - apply (bool_decide_unpack _). by vm_compute.
  - apply fmap_sublist, sublist_filter.
Qed.

(** The two shapes of the mount directives of a returned adjustment. *)
Lemma CreateContainer_views (pod : option PodSandbox.t)
    (container : Container.t) (w : World) (adjust : ContainerAdjustment.t) :
  (CreateContainer pod container w).1.1.1 = Some adjust ->
  (ContainerAdjustment.Mounts adjust
   = map (fun e => tmpfsMount e.1 e.2)
         (filter (fun e => e.1 ∉ destinations container) tmpfsMounts)
   /\ ContainerAdjustment.removals adjust = []
   /\ ContainerAdjustment.additions adjust
      = map (fun e => tmpfsMount e.1 e.2)
            (filter (fun e => e.1 ∉ destinations container) tmpfsMounts)
   /\ (cgroupfsNotExist w = true
       \/ exists m, findCgroupMount (Container.Mounts container) = Some m
                    /\ "ro" ∉ Mount.Options m))
  \/ exists m,
       cgroupfsNotExist w = false
       /\ findCgroupMount (Container.Mounts container) = Some m
       /\ "ro" ∈ Mount.Options m
       /\ ContainerAdjustment.Mounts adjust
          = Mount.mk "-/sys/fs/cgroup" "" "" []
            :: Mount.mk "/sys/fs/cgroup" (Mount.Type_ m) (Mount.Source m)
                 (rewriteOptions (Mount.Options m))
            :: map (fun e => tmpfsMount e.1 e.2)
                   (filter (fun e => e.1 ∉ destinations container) tmpfsMounts)
       /\ ContainerAdjustment.removals adjust = ["/sys/fs/cgroup"]
       /\ ContainerAdjustment.additions adjust
          = Mount.mk "/sys/fs/cgroup" (Mount.Type_ m) (Mount.Source m)
              (rewriteOptions (Mount.Options m))
            :: map (fun e => tmpfsMount e.1 e.2)
                   (filter (fun e => e.1 ∉ destinations container) tmpfsMounts).
Proof.
  intros Hadj.
  assert (forall adjust0,
            ContainerAdjustment.removals
              (setSystemdEnvironment (addSystemdTmpfsMounts adjust0 container)
                 pod container)
            = ContainerAdjustment.removals adjust0) as Hrem.
  { intros adjust0.
    by rewrite removals_setSystemdEnvironment, removals_addSystemdTmpfsMounts. }
  assert (forall adjust0,
            ContainerAdjustment.additions
              (setSystemdEnvironment (addSystemdTmpfsMounts adjust0 container)
                 pod container)
            = ContainerAdjustment.additions adjust0
              ++ map (fun e => tmpfsMount e.1 e.2)
                     (filter (fun e => e.1 ∉ destinations container)
                             tmpfsMounts)) as Hadd.
  { intros adjust0.
    by rewrite additions_setSystemdEnvironment,
      additions_addSystemdTmpfsMounts. }
  assert (forall adjust0,
            ContainerAdjustment.Mounts
              (setSystemdEnvironment (addSystemdTmpfsMounts adjust0 container)
                 pod container)
            = ContainerAdjustment.Mounts adjust0
              ++ map (fun e => tmpfsMount e.1 e.2)
                     (filter (fun e => e.1 ∉ destinations container)
                             tmpfsMounts)) as HM.
  { intros adjust0.
    by rewrite setSystemdEnvironment_Mounts, addSystemdTmpfsMounts_eq. }
  rewrite CreateContainer_response in Hadj.
  destruct (isSystemdContainer container); [|discriminate].
  rewrite configureCgroupMount_result in Hadj.
  destruct (cgroupfsNotExist w).
  { injection Hadj as <-. left. rewrite Hrem, Hadd, HM. eauto. }
  destruct (findCgroupMount (Container.Mounts container)) as [m|] eqn:Hfind;
    [|discriminate].
  destruct (findCgroupMount_Some _ _ Hfind) as [Hdest _].
  destruct (hasRO (Mount.Options m)) eqn:Hro.
  - injection Hadj as <-. right. exists m. apply hasRO_true in Hro.
    rewrite Hrem, Hadd, HM, Hdest.
    rewrite removals_rewrite, additions_rewrite by done.
    repeat split; done.
  - injection Hadj as <-. left. apply hasRO_false in Hro.
    rewrite Hrem, Hadd, HM. repeat split; try done. right. eauto.
Qed.

(** X12. The mount directives of a returned adjustment stay within five
    destinations: the only destination ever removed is [/sys/fs/cgroup], a
    removal always comes with an addition at the same destination, the
    additions are at [/sys/fs/cgroup] or a catalog destination, no two of
    them at the same one, and there are at most six directives. *)
Theorem CreateContainer_directive_destinations (pod : option PodSandbox.t)
    (container : Container.t) (w : World) (adjust : ContainerAdjustment.t) :
  (CreateContainer pod container w).1.1.1 = Some adjust ->
  (forall d, d ∈ ContainerAdjustment.removals adjust ->
     d = "/sys/fs/cgroup"
     /\ d ∈ Mount.Destination <$> ContainerAdjustment.additions adjust)
  /\ (forall m, m ∈ ContainerAdjustment.additions adjust ->
        Mount.Destination m
        ∈ ["/sys/fs/cgroup"; "/run"; "/run/lock"; "/tmp"; "/var/log/journal"])
  /\ NoDup (Mount.Destination <$> ContainerAdjustment.additions adjust)
  /\ length (ContainerAdjustment.Mounts adjust) <= 6.
Proof.
  intros Hadj.
  assert (forall m,
            m ∈ map (fun e => tmpfsMount e.1 e.2)
                    (filter (fun e => e.1 ∉ destinations container) tmpfsMounts)
            -> Mount.Destination m
               ∈ ["/run"; "/run/lock"; "/tmp"; "/var/log/journal"]) as Hcat.
  { intros m (e & He & _ & ->)%tmpfs_added_elem.
    change (e.1 ∈ fst <$> tmpfsMounts). by apply list_elem_of_fmap_2. }
  assert (length (map (fun e => tmpfsMount e.1 e.2)
                      (filter (fun e => e.1 ∉ destinations container)
                              tmpfsMounts)) <= 4) as Hlen.
  { rewrite length_map. apply (length_filter _ tmpfsMounts). }
  destruct (CreateContainer_views _ _ _ _ Hadj)
    as [(HM & Hrem & Hadd & _)|(m & _ & _ & _ & HM & Hrem & Hadd)];
    rewrite HM, Hrem, Hadd.
  - split; [intros d Hd; by apply elem_of_nil in Hd|].
    split; [intros m Hm; right; by apply Hcat|].
    split; [apply tmpfs_added_NoDup | lia].
  - split.
    { intros d ->%list_elem_of_singleton. split; [done|]. left. }
    split.
    { intros m' [->|Hm']%elem_of_cons; [left | right; by apply Hcat]. }
    split; [|cbn [length]; lia].
    rewrite fmap_cons. apply NoDup_cons. split; [|apply tmpfs_added_NoDup].
    intros (m' & Hd & Hm')%list_elem_of_fmap.
    apply (tmpfs_added_unmarked container) in Hm' as [_ Hne]. by apply Hne.
Qed.

Lemma CreateContainer_directive_destinations_sample :
  NoDup (Mount.Destination
           <$> ContainerAdjustment.additions
                 (ContainerAdjustment.mk
                    [Mount.mk "-/sys/fs/cgroup" "" "" [];
                     Samples.cgroupMount
                       ["nosuid"; "noexec"; "nodev"; "relatime"; "rw"];
                     tmpfsMount "/run" "mode=755";
                     tmpfsMount "/run/lock" "mode=755";
                     tmpfsMount "/var/log/journal" "mode=755"]
                    [KeyValue.mk "container" "other";
                     KeyValue.mk "container_uuid" "test-container-id-12345"]))
  /\ length [Mount.mk "-/sys/fs/cgroup" "" "" [];
             Samples.cgroupMount
               ["nosuid"; "noexec"; "nodev"; "relatime"; "rw"];
             tmpfsMount "/run" "mode=755"; tmpfsMount "/run/lock" "mode=755";
             tmpfsMount "/var/log/journal" "mode=755"] <= 6.
Proof.
  destruct (CreateContainer_directive_destinations (Some Samples.testPod)
              Samples.readOnlyCgroup (world false false)
              (ContainerAdjustment.mk
                 [Mount.mk "-/sys/fs/cgroup" "" "" [];
                  Samples.cgroupMount
                    ["nosuid"; "noexec"; "nodev"; "relatime"; "rw"];
                  tmpfsMount "/run" "mode=755";
                  tmpfsMount "/run/lock" "mode=755";
                  tmpfsMount "/var/log/journal" "mode=755"]
                 [KeyValue.mk "container" "other";
                  KeyValue.mk "container_uuid" "test-container-id-12345"]))
    as (_ & _ & Hnodup & Hlen).
  - reflexivity.
  - split; [exact Hnodup | exact Hlen].
Defined.

(** X13. Every addition of a returned adjustment at a destination other than
    [/sys/fs/cgroup] is a tmpfs mount with the five catalog options, at a
    destination the container does not declare: a declared mount is never
    shadowed or repeated. *)
Theorem CreateContainer_auxiliary_additions (pod : option PodSandbox.t)
    (container : Container.t) (w : World) (adjust : ContainerAdjustment.t)
    (m : Mount.t) :
  (CreateContainer pod container w).1.1.1 = Some adjust ->
  m ∈ ContainerAdjustment.additions adjust ->
  Mount.Destination m <> "/sys/fs/cgroup" ->
  (Mount.Destination m ∉ destinations container)
  /\ Mount.Type_ m = "tmpfs"
  /\ Mount.Source m = "tmpfs"
  /\ exists mode,
       Mount.Options m = ["rw"; "rprivate"; "nosuid"; "nodev"; mode].
Proof.
  intros Hadj Hm Hne.
  assert (m ∈ map (fun e => tmpfsMount e.1 e.2)
                  (filter (fun e => e.1 ∉ destinations container) tmpfsMounts))
    as (e & _ & Hnin & ->)%tmpfs_added_elem.
  { destruct (CreateContainer_views _ _ _ _ Hadj)
      as [(_ & _ & Hadd & _)|(m0 & _ & _ & _ & _ & _ & Hadd)];
      rewrite Hadd in Hm; [done|].
    apply elem_of_cons in Hm as [->|Hm]; [|done]. by destruct Hne. }
  repeat split; try done. by exists e.2.
Qed.

Lemma CreateContainer_auxiliary_additions_sample :
  (Mount.Destination (tmpfsMount "/run/lock" "mode=755")
   ∉ destinations Samples.readOnlyCgroup)
  /\ Mount.Type_ (tmpfsMount "/run/lock" "mode=755") = "tmpfs"
  /\ Mount.Source (tmpfsMount "/run/lock" "mode=755") = "tmpfs"
  /\ exists mode,
       Mount.Options (tmpfsMount "/run/lock" "mode=755")
       = ["rw"; "rprivate"; "nosuid"; "nodev"; mode].
Proof.
  apply (CreateContainer_auxiliary_additions (Some Samples.testPod)
           Samples.readOnlyCgroup (world false false)
           (ContainerAdjustment.mk
              [Mount.mk "-/sys/fs/cgroup" "" "" [];
               Samples.cgroupMount
                 ["nosuid"; "noexec"; "nodev"; "relatime"; "rw"];
               tmpfsMount "/run" "mode=755"; tmpfsMount "/run/lock" "mode=755";
               tmpfsMount "/var/log/journal" "mode=755"]
              [KeyValue.mk "container" "other";
               KeyValue.mk "container_uuid" "test-container-id-12345"])).
  - reflexivity.
  - vm_compute. do 2 right. left.
  - discriminate.
Defined.

(** X14. A returned adjustment carries no mount directive at all exactly when
    the container declares the four catalog destinations and its cgroup
    mount is left alone: the host has no cgroup filesystem, or the first
    mount at [/sys/fs/cgroup] has no option [ro]. *)
Theorem CreateContainer_no_mount_directive_iff (pod : option PodSandbox.t)
    (container : Container.t) (w : World) (adjust : ContainerAdjustment.t) :
  (CreateContainer pod container w).1.1.1 = Some adjust ->
  ContainerAdjustment.Mounts adjust = []
  <-> (forall d, d ∈ ["/run"; "/run/lock"; "/tmp"; "/var/log/journal"] ->
         d ∈ destinations container)
      /\ (cgroupfsNotExist w = true
          \/ exists m, findCgroupMount (Container.Mounts container) = Some m
                       /\ "ro" ∉ Mount.Options m).
Proof.
  intros Hadj.
  assert (map (fun e => tmpfsMount e.1 e.2)
              (filter (fun e => e.1 ∉ destinations container) tmpfsMounts) = []
          <-> forall d, d ∈ ["/run"; "/run/lock"; "/tmp"; "/var/log/journal"] ->
                        d ∈ destinations container) as Hnil.
  { split.
    - intros HT d Hd.
      destruct (decide (d ∈ destinations container)) as [|Hnin]; [done|].
      change (d ∈ fst <$> tmpfsMounts) in Hd.
      apply list_elem_of_fmap in Hd as (e & -> & He).
      assert (tmpfsMount e.1 e.2 ∈ @nil Mount.t) as Habs
        by (rewrite <- HT; apply tmpfs_added_elem; by exists e).
      by apply elem_of_nil in Habs.
    - intros Hall. rewrite filter_none; [done|].
      intros e He Hnin. apply Hnin, Hall.
      change (e.1 ∈ fst <$> tmpfsMounts). by apply list_elem_of_fmap_2. }
  destruct (CreateContainer_views _ _ _ _ Hadj)
    as [(HM & _ & _ & Hwhy)|(m & Hhost & Hfind & Hro & HM & _)]; rewrite HM.
  - rewrite Hnil. tauto.
  - split; [discriminate|]. intros (_ & [?|(m' & Hfind' & Hno)]); [congruence|].
    rewrite Hfind in Hfind'. injection Hfind' as <-. contradiction.
Qed.

Lemma CreateContainer_no_mount_directive_iff_sample :
  ContainerAdjustment.Mounts
    (ContainerAdjustment.mk []
       [KeyValue.mk "container" "other"; KeyValue.mk "container_uuid" "abc123"])
  = []
  <-> (forall d, d ∈ ["/run"; "/run/lock"; "/tmp"; "/var/log/journal"] ->
         d ∈ destinations
               (Container.mk "abc123" "prepared" ["/sbin/init"] []
                  [Samples.cgroupMount ["rw"]; tmpfsMount "/run" "mode=755";
                   tmpfsMount "/run/lock" "mode=755";
                   tmpfsMount "/tmp" "mode=1777";
                   tmpfsMount "/var/log/journal" "mode=755"] ∅))
      /\ (cgroupfsNotExist (world false false) = true
          \/ exists m,
               findCgroupMount
                 (Container.Mounts
                    (Container.mk "abc123" "prepared" ["/sbin/init"] []
                       [Samples.cgroupMount ["rw"];
                        tmpfsMount "/run" "mode=755";
                        tmpfsMount "/run/lock" "mode=755";
                        tmpfsMount "/tmp" "mode=1777";
                        tmpfsMount "/var/log/journal" "mode=755"] ∅))
               = Some m
               /\ "ro" ∉ Mount.Options m).
Proof.
  apply (CreateContainer_no_mount_directive_iff None
           (Container.mk "abc123" "prepared" ["/sbin/init"] []
              [Samples.cgroupMount ["rw"]; tmpfsMount "/run" "mode=755";
               tmpfsMount "/run/lock" "mode=755"; tmpfsMount "/tmp" "mode=1777";
               tmpfsMount "/var/log/journal" "mode=755"] ∅)
           (world false false)).
  reflexivity.
Defined.

(** X15. Each step only appends to the adjustment it is handed: the cgroup
    step and the injector keep the mounts recorded so far in front and
    leave the environment additions alone, the synthesizer keeps the
    environment additions recorded so far in front and leaves the mounts
    alone. *)
Theorem steps_only_append (adjust : ContainerAdjustment.t)
    (pod : option PodSandbox.t) (container : Container.t) (ctrName : string)
    (w : World) :
  (ContainerAdjustment.Mounts adjust
   `prefix_of` ContainerAdjustment.Mounts
                 (configureCgroupMount adjust container ctrName w).1.1
   /\ ContainerAdjustment.Env
        (configureCgroupMount adjust container ctrName w).1.1
      = ContainerAdjustment.Env adjust)
  /\ (ContainerAdjustment.Mounts adjust
      `prefix_of` ContainerAdjustment.Mounts
                    (addSystemdTmpfsMounts adjust container)
      /\ ContainerAdjustment.Env (addSystemdTmpfsMounts adjust container)
         = ContainerAdjustment.Env adjust)
  /\ (ContainerAdjustment.Env adjust
      `prefix_of` ContainerAdjustment.Env
                    (setSystemdEnvironment adjust pod container)
      /\ ContainerAdjustment.Mounts (setSystemdEnvironment adjust pod container)
         = ContainerAdjustment.Mounts adjust).
Proof.
  split; [|split].
  - split; [|apply configureCgroupMount_Env].
    rewrite configureCgroupMount_result.
    destruct (cgroupfsNotExist w); [done|].
    destruct (findCgroupMount _) as [m|]; [|done].
    destruct (hasRO _); [|done].
    unfold ContainerAdjustment.AddMount, ContainerAdjustment.RemoveMount.
    cbn [fst ContainerAdjustment.Mounts]. rewrite <- app_assoc.
    by apply prefix_app_r.
  - rewrite addSystemdTmpfsMounts_eq. cbn. split; [|done].
    by apply prefix_app_r.
  - split; [|apply setSystemdEnvironment_Mounts].
    unfold setSystemdEnvironment, ContainerAdjustment.AddEnv.
    destruct pod as [p|]; [destruct (PodSandbox.Annotations p !! _)|];
      destruct (hasContainerUUID _), (String.eqb (Container.Id container) "");
      cbn; rewrite <- ?app_assoc; by apply prefix_app_r.
Qed.

(** X16. The mount directives and the error depend on the declared mounts,
    the detector's answer and the host only: two requests that agree on
    these get the same mount directives or the same error, whatever their
    sandboxes, ids, names, environments and verbosity. *)
Theorem CreateContainer_mounts_depend_on_mounts
    (pod1 pod2 : option PodSandbox.t) (c1 c2 : Container.t) (w1 w2 : World) :
  isSystemdContainer c1 = isSystemdContainer c2 ->
  Container.Mounts c1 = Container.Mounts c2 ->
  cgroupfsNotExist w1 = cgroupfsNotExist w2 ->
  ContainerAdjustment.Mounts <$> (CreateContainer pod1 c1 w1).1.1.1
  = ContainerAdjustment.Mounts <$> (CreateContainer pod2 c2 w2).1.1.1
  /\ (CreateContainer pod1 c1 w1).1.2 = (CreateContainer pod2 c2 w2).1.2.
Proof.
  intros Hdet Hmounts Hhost. rewrite !CreateContainer_response, Hdet.
  destruct (isSystemdContainer c2); [|done].
  rewrite !configureCgroupMount_result, Hhost, Hmounts.
  assert (forall adjust0,
            addSystemdTmpfsMounts adjust0 c1 = addSystemdTmpfsMounts adjust0 c2)
    as Htmpfs.
  { intros adjust0. rewrite !addSystemdTmpfsMounts_eq. unfold destinations.
    by rewrite Hmounts. }
  destruct (cgroupfsNotExist w2).
  { cbn [fst snd fmap option_fmap option_map].
    by rewrite !setSystemdEnvironment_Mounts, Htmpfs. }
  destruct (findCgroupMount (Container.Mounts c2)) as [m|]; [|done].
  destruct (hasRO _); cbn [fst snd fmap option_fmap option_map];
    by rewrite !setSystemdEnvironment_Mounts, Htmpfs.
Qed.

Lemma CreateContainer_mounts_depend_on_mounts_sample :
  ContainerAdjustment.Mounts
    <$> (CreateContainer (Some Samples.podWithUID) Samples.idAndPodUID
           (world true false)).1.1.1
  = ContainerAdjustment.Mounts
      <$> (CreateContainer None Samples.sbinInit (world false false)).1.1.1
  /\ (CreateContainer (Some Samples.podWithUID) Samples.idAndPodUID
        (world true false)).1.2
     = (CreateContainer None Samples.sbinInit (world false false)).1.2.
Proof.
  apply (CreateContainer_mounts_depend_on_mounts (Some Samples.podWithUID) None
           Samples.idAndPodUID Samples.sbinInit
           (world true false) (world false false)); reflexivity.
Defined.

(** X17. The environment additions depend on the sandbox, the declared
    environment and the id only: two requests that agree on these and both
    get an adjustment get the same environment additions, whatever their
    mounts, arguments, hosts and verbosity. *)
Theorem CreateContainer_env_depends_on_identity (pod : option PodSandbox.t)
    (c1 c2 : Container.t) (w1 w2 : World)
    (adjust1 adjust2 : ContainerAdjustment.t) :
  Container.Env c1 = Container.Env c2 ->
  Container.Id c1 = Container.Id c2 ->
  (CreateContainer pod c1 w1).1.1.1 = Some adjust1 ->
  (CreateContainer pod c2 w2).1.1.1 = Some adjust2 ->
  ContainerAdjustment.Env adjust1 = ContainerAdjustment.Env adjust2.
Proof.
  intros Henv Hid H1 H2.
  rewrite (CreateContainer_adjustment_Env _ _ _ _ H1),
    (CreateContainer_adjustment_Env _ _ _ _ H2).
  unfold setSystemdEnvironment. by rewrite Henv, Hid.
Qed.

Lemma CreateContainer_env_depends_on_identity_sample :
  ContainerAdjustment.Env
    (ContainerAdjustment.mk
       [tmpfsMount "/run" "mode=755"; tmpfsMount "/run/lock" "mode=755";
        tmpfsMount "/tmp" "mode=1777"; tmpfsMount "/var/log/journal" "mode=755"]
       [KeyValue.mk "container" "other";
        KeyValue.mk "container_uuid" "test-container-id-12345"])
  = ContainerAdjustment.Env
      (ContainerAdjustment.mk
         [Mount.mk "-/sys/fs/cgroup" "" "" [];
          Samples.cgroupMount ["nosuid"; "noexec"; "nodev"; "relatime"; "rw"];
          tmpfsMount "/run" "mode=755"; tmpfsMount "/run/lock" "mode=755";
          tmpfsMount "/var/log/journal" "mode=755"]
         [KeyValue.mk "container" "other";
          KeyValue.mk "container_uuid" "test-container-id-12345"]).
Proof.
  apply (CreateContainer_env_depends_on_identity (Some Samples.testPod)
           Samples.sbinInit Samples.readOnlyCgroup
           (world false false) (world true false)); reflexivity.
Defined.

(** ** Diagnostics *)

Lemma Split_nonempty (s : string) : Split s <> [].
Proof.
  destruct s as [|c rest]; [done|]. cbn [Split].
  destruct (Ascii.eqb c newline); [done|]. by destruct (Split rest).
Qed.

Lemma Join_cons_char (c : ascii) (line : string) (lines : list string) :
  Join (String c line :: lines) = String c (Join (line :: lines)).
Proof. by destruct lines. Qed.

(** Joining the pieces with newlines gives the string back. *)
Lemma Join_Split (s : string) : Join (Split s) = s.
Proof.
  induction s as [|c rest IH]; [done|]. cbn [Split].
  destruct (Ascii.eqb c newline) eqn:E.
  - apply Ascii.eqb_eq in E. subst c.
    pose proof (Split_nonempty rest) as Hne.
    destruct (Split rest) as [|line lines]; [done|].
    change (Join (EmptyString :: line :: lines))
      with (String newline (Join (line :: lines))).
    by rewrite IH.
  - pose proof (Split_nonempty rest) as Hne.
    destruct (Split rest) as [|line lines]; [done|].
    by rewrite Join_cons_char, IH.
Qed.

(** No piece holds a newline. *)
Lemma Split_no_newline (s line : string) :
  line ∈ Split s -> newline ∉ list_ascii_of_string line.
Proof.
  revert line. induction s as [|c rest IH]; intros line Hin.
  - apply list_elem_of_singleton in Hin. subst line. apply not_elem_of_nil.
  - cbn [Split] in Hin. destruct (Ascii.eqb c newline) eqn:E.
    + apply elem_of_cons in Hin as [->|Hin]; [apply not_elem_of_nil|].
      by apply IH.
    + pose proof (Split_nonempty rest) as Hne.
      destruct (Split rest) as [|first lines]; [done|].
      apply elem_of_cons in Hin as [->|Hin].
      * cbn [list_ascii_of_string]. apply not_elem_of_cons. split.
        -- intros Heq. rewrite <- Heq in E. by rewrite Ascii.eqb_refl in E.
        -- apply IH. left.
      * apply IH. by right.
Qed.

Lemma world_eta (w : World) :
  mkWorld (verbose w) (cgroupfsNotExist w) (logged w ++ []) = w.
Proof. destruct w. cbn. by rewrite app_nil_r. Qed.

Lemma logCall_run (c : LogCall) (w : World) :
  logCall c w
  = (tt, mkWorld (verbose w) (cgroupfsNotExist w) (logged w ++ [c])).
Proof. reflexivity. Qed.

(** A loop that logs one info line per element. *)
Lemma forEach_Infof {A : Type} (f : A -> string) (l : list A) (w : World) :
  forEach l (fun x => logCall (Infof (f x))) w
  = (tt, mkWorld (verbose w) (cgroupfsNotExist w)
           (logged w ++ map (fun x => Infof (f x)) l)).
Proof.
  revert w. induction l as [|x l IH]; intros w.
  - cbn [forEach map]. by rewrite world_eta.
  - cbn [forEach map]. unfold mbind, M_bind, logCall. rewrite IH.
    cbn [verbose cgroupfsNotExist logged]. by rewrite <- app_assoc.
Qed.

Lemma list_pair_ind {A : Type} (P : list A -> Prop) :
  P [] -> (forall x, P [x]) -> (forall x y l, P l -> P (x :: y :: l)) ->
  forall l, P l.
Proof.
  intros Hnil Hone Hstep l.
  assert (P l /\ forall x, P (x :: l)) as [H _]; [|exact H].
  induction l as [|y l [IH1 IH2]]; [by split|].
  split; [apply IH2|]. intros x. by apply Hstep.
Qed.

Section DumpFacts.

Variable yamlMarshal : any -> string + error.
Variable TrimSpace : string -> string.
Variable formatOther : any -> string.

Local Abbreviation fmtS := (verbS formatOther).
Local Abbreviation dumpOne := (dumpObject yamlMarshal TrimSpace formatOther).
Local Abbreviation dumpFrom := (dumpLoop yamlMarshal TrimSpace formatOther).
Local Abbreviation dumpAll := (dump yamlMarshal TrimSpace formatOther).

(** What one pass of the loop logs. *)
Lemma dumpObject_run (prefix : string) (tag obj : any) (w : World) :
  dumpOne prefix tag obj w
  = (tt, mkWorld (verbose w) (cgroupfsNotExist w)
           (logged w
            ++ match yamlMarshal obj with
               | inr err =>
                   [Infof (prefix +:+ ": " +:+ fmtS tag
                           +:+ ": failed to dump object: " +:+ err)]
               | inl msg =>
                   if String.eqb prefix ""
                   then Infof (fmtS tag +:+ ":")
                        :: map (fun line => Infof ("  " +:+ line))
                               (Split (TrimSpace msg))
                   else Infof (prefix +:+ ": " +:+ fmtS tag +:+ ":")
                        :: map (fun line => Infof (prefix +:+ ":    " +:+ line))
                               (Split (TrimSpace msg))
               end)).
Proof.
  unfold dumpObject. destruct (yamlMarshal obj) as [msg|err].
  - destruct (String.eqb prefix ""); cbn [negb];
      unfold mbind, M_bind; rewrite logCall_run; cbv beta iota;
      rewrite forEach_Infof;
      cbn [verbose cgroupfsNotExist logged]; by rewrite <- app_assoc.
  - reflexivity.
Qed.

(** The loop appends info lines that do not depend on the world it
    starts in, at least one per pair of arguments. *)
Lemma dumpLoop_run (prefix : string) (args : list any) :
  exists new,
    (forall w, dumpFrom prefix args w
               = (tt, mkWorld (verbose w) (cgroupfsNotExist w)
                        (logged w ++ new)))
    /\ Forall (fun e => exists msg, e = Infof msg) new
    /\ Nat.div2 (length args) <= length new.
Proof.
  induction args as [| x | tag obj rest (new & Hrun & Hinfo & Hlen)]
    using list_pair_ind.
  - exists []. split; [|split; [constructor | cbn; lia]].
    intros w. cbn. by rewrite world_eta.
  - exists []. split; [|split; [constructor | cbn; lia]].
    intros w. cbn. by rewrite world_eta.
  - eexists (_ ++ new). split; [|split].
    + intros w. cbn [dumpLoop]. unfold mbind, M_bind.
      rewrite dumpObject_run, Hrun. cbn [verbose cgroupfsNotExist logged].
      by rewrite <- app_assoc.
    + apply Forall_app. split; [|done].
      destruct (yamlMarshal obj) as [msg|err].
      * destruct (String.eqb prefix ""); constructor; eauto;
          apply Forall_forall; intros e (line & -> & _)%(list_elem_of_fmap _);
          eauto.
      * repeat constructor. eauto.
    + rewrite length_app. cbn [length Nat.div2].
      destruct (yamlMarshal obj) as [msg|err];
        [destruct (String.eqb prefix "")|]; cbn [length]; lia.
Qed.

End DumpFacts.

Section DumpProperties.

Variable yamlMarshal : any -> string + error.
Variable TrimSpace : string -> string.
Variable formatOther : any -> string.

Local Abbreviation fmtS := (verbS formatOther).
Local Abbreviation dumpFrom := (dumpLoop yamlMarshal TrimSpace formatOther).
Local Abbreviation dumpAll := (dump yamlMarshal TrimSpace formatOther).

(** X18. [dump] panics exactly when it is given an odd number of arguments
    the first of which is not a string; it has logged nothing then. With
    fewer than two arguments it logs nothing either. *)
Theorem dump_panics_iff (args : list any) (w : World) :
  ((dumpAll args w).1 = None
   <-> Nat.odd (length args) = true
       /\ forall s, head args <> Some (AnyString s))
  /\ ((dumpAll args w).1 = None -> (dumpAll args w).2 = w)
  /\ (length args <= 1 -> (dumpAll args w).2 = w).
Proof.
  unfold dump.
  destruct (Nat.odd (length args)) eqn:Hodd.
  - destruct args as [|[prefix|pod|container|adjust] rest];
      try discriminate Hodd; unfold mbind, M_bind, mret, M_ret.
    + destruct (dumpLoop_run yamlMarshal TrimSpace formatOther prefix rest)
        as (new & Hrun & _). rewrite Hrun. cbn [fst snd].
      split; [split; [discriminate|]|split; [discriminate|]].
      * intros [_ Hs]. by destruct (Hs prefix).
      * intros Hlen. destruct rest; [|cbn in Hlen; lia].
        specialize (Hrun w). cbn in Hrun. by injection Hrun as <-.
    + cbn [fst snd head]. repeat split; done.
    + cbn [fst snd head]. repeat split; done.
    + cbn [fst snd head]. repeat split; done.
  - unfold mbind, M_bind, mret, M_ret.
    destruct (dumpLoop_run yamlMarshal TrimSpace formatOther "" args)
      as (new & Hrun & _). rewrite Hrun. cbn [fst snd].
    split; [split; [discriminate|intros [? _]; discriminate]|].
    split; [discriminate|].
    intros Hlen. destruct args as [|x [|y rest]]; [| |cbn in Hlen; lia].
    + specialize (Hrun w). cbn in Hrun. by injection Hrun as <-.
    + discriminate Hodd.
Qed.

(** X19. [dump] leaves the verbosity and the host as they are and appends
    info-level lines only; when it does not panic, at least one line per
    pair of arguments. *)
Theorem dump_logs_info_only (args : list any) (w : World) :
  exists new,
    (dumpAll args w).2
    = mkWorld (verbose w) (cgroupfsNotExist w) (logged w ++ new)
    /\ Forall (fun e => exists msg, e = Infof msg) new
    /\ ((dumpAll args w).1 = Some tt -> Nat.div2 (length args) <= length new).
Proof.
  unfold dump.
  destruct (Nat.odd (length args)) eqn:Hodd.
  - destruct args as [|[prefix|pod|container|adjust] rest];
      try discriminate Hodd; unfold mbind, M_bind, mret, M_ret;
      try (exists []; cbn [fst snd]; rewrite world_eta;
           repeat split; [constructor | discriminate]).
    destruct (dumpLoop_run yamlMarshal TrimSpace formatOther prefix rest)
      as (new & Hrun & Hinfo & Hlen). rewrite Hrun. cbn [fst snd].
    exists new. repeat split; try done. intros _.
    cbn [length] in Hodd. rewrite Nat.odd_succ in Hodd.
    apply Nat.even_spec in Hodd as [k Hk]. cbn [length]. rewrite Hk in *.
    rewrite Nat.div2_succ_double. by rewrite Nat.div2_double in Hlen.
  - unfold mbind, M_bind, mret, M_ret.
    destruct (dumpLoop_run yamlMarshal TrimSpace formatOther "" args)
      as (new & Hrun & Hinfo & Hlen). rewrite Hrun. cbn [fst snd].
    exists new. repeat split; done.
Qed.

(** X20. With a prefix that is not empty and an object that marshals, [dump]
    logs a heading and then the trimmed document line by line, each line
    behind the prefix: the lines, joined by newlines, are the trimmed
    document, there is at least one, and none holds a newline. *)
Theorem dump_prints_document (prefix : string) (tag obj : any)
    (msg : string) (w : World) :
  prefix <> "" ->
  yamlMarshal obj = inl msg ->
  exists lines,
    logged (dumpAll [AnyString prefix; tag; obj] w).2
    = logged w
      ++ Infof (prefix +:+ ": " +:+ fmtS tag +:+ ":")
         :: map (fun line => Infof (prefix +:+ ":    " +:+ line)) lines
    /\ Join lines = TrimSpace msg
    /\ 1 <= length lines
    /\ forall line, line ∈ lines -> newline ∉ list_ascii_of_string line.
Proof.
  intros Hprefix Hmsg. exists (Split (TrimSpace msg)).
  split; [|split; [apply Join_Split|split; [|apply Split_no_newline]]].
  - unfold dump. cbn [length Nat.odd Nat.even negb dumpLoop].
    unfold mbind, M_bind, mret, M_ret. rewrite dumpObject_run, Hmsg.
    apply String.eqb_neq in Hprefix. rewrite Hprefix.
    cbn [fst snd logged]. reflexivity.
  - pose proof (Split_nonempty (TrimSpace msg)).
    destruct (Split (TrimSpace msg)); [done | cbn; lia].
Qed.

(** X21. An object that fails to marshal costs one info line that names the
    prefix, the tag and the error, and the loop goes on with the pairs
    after it as if it had started there. *)
Theorem dumpLoop_failure_continues (prefix : string) (tag obj : any)
    (err : error) (rest : list any) (w : World) :
  yamlMarshal obj = inr err ->
  exists new,
    (forall w0, logged (dumpFrom prefix rest w0).2 = logged w0 ++ new)
    /\ logged (dumpFrom prefix (tag :: obj :: rest) w).2
       = logged w
         ++ Infof (prefix +:+ ": " +:+ fmtS tag
                   +:+ ": failed to dump object: " +:+ err)
            :: new.
Proof.
  intros Herr.
  destruct (dumpLoop_run yamlMarshal TrimSpace formatOther prefix rest)
    as (new & Hrun & _).
  exists new. split.
  - intros w0. by rewrite Hrun.
  - cbn [dumpLoop]. unfold mbind, M_bind. rewrite dumpObject_run, Herr, Hrun.
    cbn [snd logged]. by rewrite <- app_assoc.
Qed.

(** X22. Every call of [dump] the handler makes is one that does not panic:
    a [Dump] in the log after a request was there before, or was made in
    verbose mode with arguments [dump] accepts in any world. *)
Theorem CreateContainer_dumps_accepted (pod : option PodSandbox.t)
    (container : Container.t) (w : World) (args : list any) :
  Dump args ∈ logged (CreateContainer pod container w).2 ->
  Dump args ∈ logged w
  \/ (verbose w = true /\ forall w0, (dumpAll args w0).1 = Some tt).
Proof.
  rewrite CreateContainer_logged, !elem_of_app.
  assert (forall prefix rest w0,
            (dumpAll (AnyString prefix :: rest) w0).1 = Some tt
            \/ Nat.odd (length (AnyString prefix :: rest)) = false)
    as Hstring.
  { intros prefix rest w0. unfold dump.
    destruct (Nat.odd _); [left | by right].
    unfold mbind, M_bind, mret, M_ret. by destruct (dumpLoop _ _ _ _ _ _). }
  intros [Hold|[Hreq|Hrest]]; [by left| |]; right.
  - destruct (verbose w); [|by apply elem_of_nil in Hreq].
    apply list_elem_of_singleton in Hreq. injection Hreq as ->.
    split; [done|]. intros w0.
    by destruct (Hstring "CreateContainer"
                   [AnyString "pod"; AnyPod pod; AnyString "container";
                    AnyContainer container] w0).
  - destruct (isSystemdContainer container).
    + apply elem_of_cons in Hrest as [Hcg|Hlast].
      { destruct (cgroupfsNotExist w); [discriminate|].
        destruct (findCgroupMount _) as [m|]; [|discriminate].
        destruct (hasRO _); discriminate. }
      destruct ((CreateContainer pod container w).1.1.1) as [adjust|];
        [|by apply elem_of_nil in Hlast].
      apply list_elem_of_singleton in Hlast.
      destruct (verbose w); [|discriminate]. injection Hlast as ->.
      split; [done|]. intros w0.
      by destruct (Hstring (containerName pod container)
                     [AnyString "ContainerAdjustment"; AnyAdjustment adjust]
                     w0).
    + destruct (verbose w); [|by apply elem_of_nil in Hrest].
      apply list_elem_of_singleton in Hrest. discriminate.
Qed.

End DumpProperties.

Lemma dump_prints_document_sample :
  exists lines,
    logged (dump DumpSamples.yamlMarshal DumpSamples.TrimSpace
              DumpSamples.formatOther
              [AnyString "pod/ctr"; AnyString "pod"; AnyPod None]
              (world true false)).2
    = logged (world true false)
      ++ Infof ("pod/ctr" +:+ ": " +:+ "pod" +:+ ":")
         :: map (fun line => Infof ("pod/ctr" +:+ ":    " +:+ line)) lines
    /\ Join lines = DumpSamples.twoLines
    /\ 1 <= length lines
    /\ forall line, line ∈ lines -> newline ∉ list_ascii_of_string line.
Proof.
  apply (dump_prints_document DumpSamples.yamlMarshal DumpSamples.TrimSpace
           DumpSamples.formatOther "pod/ctr" (AnyString "pod") (AnyPod None)
           DumpSamples.twoLines (world true false)).
  - discriminate.
  - reflexivity.
Defined.

Lemma dumpLoop_failure_continues_sample :
  exists new,
    (forall w0,
       logged (dumpLoop DumpSamples.yamlMarshal DumpSamples.TrimSpace
                 DumpSamples.formatOther "pod/ctr"
                 [AnyString "pod"; AnyPod None] w0).2
       = logged w0 ++ new)
    /\ logged (dumpLoop DumpSamples.yamlMarshal DumpSamples.TrimSpace
                 DumpSamples.formatOther "pod/ctr"
                 [AnyString "note"; AnyString "text"; AnyString "pod";
                  AnyPod None]
                 (world true false)).2
       = logged (world true false)
         ++ Infof ("pod/ctr" +:+ ": " +:+ "note"
                   +:+ ": failed to dump object: " +:+ "unsupported")
            :: new.
Proof.
  apply (dumpLoop_failure_continues DumpSamples.yamlMarshal
           DumpSamples.TrimSpace DumpSamples.formatOther "pod/ctr"
           (AnyString "note") (AnyString "text") "unsupported"
           [AnyString "pod"; AnyPod None] (world true false)).
  reflexivity.
Defined.

Lemma CreateContainer_dumps_accepted_sample :
  Dump [AnyString "CreateContainer"; AnyString "pod"; AnyPod None;
        AnyString "container"; AnyContainer Samples.bash]
  ∈ logged (world true false)
  \/ (verbose (world true false) = true
      /\ forall w0,
           (dump DumpSamples.yamlMarshal DumpSamples.TrimSpace
              DumpSamples.formatOther
              [AnyString "CreateContainer"; AnyString "pod"; AnyPod None;
               AnyString "container"; AnyContainer Samples.bash] w0).1
           = Some tt).
Proof.
  apply (CreateContainer_dumps_accepted DumpSamples.yamlMarshal
           DumpSamples.TrimSpace DumpSamples.formatOther None Samples.bash
           (world true false)).
  vm_compute. left.
Defined.

(** ** The host without a cgroup filesystem *)

Lemma hasContainerUUID_false (env : list string) :
  (forall value, "container_uuid=" +:+ value ∉ env) ->
  hasContainerUUID env = false.
Proof.
  intros Hnone. destruct (hasContainerUUID env) eqn:E; [|done].
  apply hasContainerUUID_true in E as (e & He & Hp).
  destruct (prefix_split _ _ Hp) as [value ->]. by destruct (Hnone value).
Qed.

(** C7. For a detected systemd container on a host without a cgroup
    filesystem at [/sys/fs/cgroup], the handler returns an adjustment and no
    error. The adjustment holds no removal and no addition at
    [/sys/fs/cgroup]. Its mounts are additions, and they are the tmpfs
    mounts (type [tmpfs], source [tmpfs], options [rw], [rprivate],
    [nosuid], [nodev] and the mode) of the catalog destinations the
    container does not declare, in catalog order. Its environment additions
    begin with [container=other]; nothing follows when the container
    declares a [container_uuid]; otherwise the id, if not empty, and the pod
    UID, if the sandbox is annotated with one, follow as [container_uuid].
    The soft condition is logged at error level. *)
Theorem CreateContainer_host_without_cgroupfs (pod : option PodSandbox.t)
    (container : Container.t) (w : World) :
  isSystemdContainer container = true ->
  cgroupfsNotExist w = true ->
  exists adjust,
    (CreateContainer pod container w).1 = (Some adjust, None, None)
    /\ ContainerAdjustment.removals adjust = []
    /\ filter (fun m => Mount.Destination m = "/sys/fs/cgroup")
              (ContainerAdjustment.additions adjust) = []
    /\ ContainerAdjustment.Mounts adjust
       = (fun e => Mount.mk e.1 "tmpfs" "tmpfs"
                     ["rw"; "rprivate"; "nosuid"; "nodev"; e.2])
         <$> filter (fun e => e.1 ∉ (Mount.Destination
                                       <$> Container.Mounts container))
               [("/run", "mode=755"); ("/run/lock", "mode=755");
                ("/tmp", "mode=1777"); ("/var/log/journal", "mode=755")]
    /\ ContainerAdjustment.additions adjust = ContainerAdjustment.Mounts adjust
    /\ ((exists value, "container_uuid=" +:+ value ∈ Container.Env container) ->
        ContainerAdjustment.Env adjust = [KeyValue.mk "container" "other"])
    /\ ((forall value,
           "container_uuid=" +:+ value ∉ Container.Env container) ->
        ContainerAdjustment.Env adjust
        = KeyValue.mk "container" "other"
          :: (KeyValue.mk "container_uuid"
                <$> (if decide (Container.Id container = "") then []
                     else [Container.Id container])
                    ++ option_list
                         (pod ≫= (fun p => PodSandbox.Annotations p
                                           !! "io.kubernetes.pod.uid"))))
    /\ ContainerAdjustment.Mounts adjust
       = ContainerAdjustment.Mounts
           (addSystemdTmpfsMounts ContainerAdjustment.zero container)
    /\ ContainerAdjustment.Env adjust
       = ContainerAdjustment.Env
           (setSystemdEnvironment ContainerAdjustment.zero pod container)
    /\ KeyValue.mk "container" "other" ∈ ContainerAdjustment.Env adjust
    /\ Errorf (containerName pod container
               +:+ ": cgroup filesystem not available at /sys/fs/cgroup - skipping systemd support")
       ∈ logged (CreateContainer pod container w).2.
Proof.
  intros Hdet Hhost.
  assert (ContainerAdjustment.Env
            (setSystemdEnvironment
               (addSystemdTmpfsMounts ContainerAdjustment.zero container)
               pod container)
          = ContainerAdjustment.Env
              (setSystemdEnvironment ContainerAdjustment.zero pod container))
    as HEnv.
  { apply setSystemdEnvironment_Env. by rewrite addSystemdTmpfsMounts_eq. }
  rewrite CreateContainer_response, Hdet, configureCgroupMount_result, Hhost.
  eexists. split; [reflexivity|].
  rewrite removals_setSystemdEnvironment, additions_setSystemdEnvironment.
  rewrite removals_addSystemdTmpfsMounts,
    cgroup_additions_addSystemdTmpfsMounts, additions_addSystemdTmpfsMounts.
  rewrite setSystemdEnvironment_Mounts, HEnv.
  split; [reflexivity|]. split; [reflexivity|].
  split; [by rewrite addSystemdTmpfsMounts_eq|].
  split; [by rewrite addSystemdTmpfsMounts_eq|].
  split.
  { intros (value & Hin).
    rewrite setSystemdEnvironment_declared; [reflexivity|].
    apply hasContainerUUID_true. eexists. split; [exact Hin|].
    apply prefix_app. }
  split.
  { intros Hnone. apply hasContainerUUID_false in Hnone.
    unfold setSystemdEnvironment, ContainerAdjustment.AddEnv. rewrite Hnone.
    destruct (decide (Container.Id container = "")) as [Hid|Hid].
    - rewrite Hid. destruct pod as [p|]; [|reflexivity].
      cbn [mbind option_bind]. by destruct (PodSandbox.Annotations p !! _).
    - apply String.eqb_neq in Hid. rewrite Hid.
      destruct pod as [p|]; [|reflexivity].
      cbn [mbind option_bind]. by destruct (PodSandbox.Annotations p !! _). }
  split; [reflexivity|]. split; [reflexivity|].
  split; [apply marker_recorded|].
  unfold CreateContainer, configureCgroupMount, mbind, M_bind, getVerbose,
    statCgroupfsNotExist, when, logCall, mret, M_ret.
  rewrite Hdet. destruct w as [[|] host lg]; cbn in Hhost; subst host;
    cbn [verbose cgroupfsNotExist logged negb snd];
    rewrite !elem_of_app, !elem_of_cons; tauto.
Qed.

Lemma CreateContainer_host_without_cgroupfs_sample :
  exists adjust,
    (CreateContainer (Some Samples.testPod) Samples.noCgroupMount
       (world false true)).1 = (Some adjust, None, None)
    /\ ContainerAdjustment.removals adjust = []
    /\ ContainerAdjustment.Mounts adjust
       = [Mount.mk "/run" "tmpfs" "tmpfs"
            ["rw"; "rprivate"; "nosuid"; "nodev"; "mode=755"];
          Mount.mk "/run/lock" "tmpfs" "tmpfs"
            ["rw"; "rprivate"; "nosuid"; "nodev"; "mode=755"];
          Mount.mk "/var/log/journal" "tmpfs" "tmpfs"
            ["rw"; "rprivate"; "nosuid"; "nodev"; "mode=755"]]
    /\ ContainerAdjustment.Env adjust
       = [KeyValue.mk "container" "other";
          KeyValue.mk "container_uuid" "test-container-id-12345"]
    /\ Errorf "test-pod-systemd/test-container-systemd: cgroup filesystem not available at /sys/fs/cgroup - skipping systemd support"
       ∈ logged (CreateContainer (Some Samples.testPod) Samples.noCgroupMount
                   (world false true)).2.
Proof.
  destruct (CreateContainer_host_without_cgroupfs (Some Samples.testPod)
              Samples.noCgroupMount (world false true))
    as (adjust & Hresp & Hrem & _ & HM & _ & _ & HE & _ & _ & _ & Hlog).
  - reflexivity.
  - reflexivity.
  - exists adjust. split; [exact Hresp|]. split; [exact Hrem|].
    split; [exact HM|]. split; [|exact Hlog].
    apply HE. intros value Hin.
    apply list_elem_of_singleton in Hin. discriminate Hin.
Defined.
